(** * insta-transcriber: the post-selection and report pipeline

    A shallow embedding of [csv_profile_transcriber.py] (class
    [CSVProfileTranscriber]) and of [runpod_handler.py] ([handler]).

    - Python strings are Rocq [string]s, over an alphabet of 256
      characters.  [str.lower] and [int(str)] are modelled on the ASCII
      range: letters [A-Z], digits [0-9], the white space
      [\t \n \v \f \r \x1c-\x1f] and the blank ([int] does not skip
      [\x1c-\x1f]).  [str.isalnum], whose answer on a character comes
      from the Unicode tables, is a parameter.
      The interpreter's limit on the number of digits of [int(str)] is
      not modelled.
    - A row record is a Python [dict] with string keys: an association
      list in insertion order, updated in place by [dict_set].
    - Cell values are the Python objects the two readers produce: [None],
      [bool], [int], [float] and [str].  A float is a [spec_float]: NaN,
      an infinity, a signed zero or [(-1)^s * m * 2^e].
    - Raising is a [result]; code that touches the file system, the clock
      or the media pipeline runs in the monad [M] over an abstract world,
      with the collaborators collected in the class [Externals]. *)

From Stdlib Require Import ZArith String Ascii List Bool Lia SpecFloat DecimalString.
From Stdlib Require Import Sorted Permutation.
From stdpp Require Import base list strings gmap sorting.

Local Open Scope string_scope.
Local Open Scope Z_scope.

(** ** Exceptions and results *)

Inductive exn : Type :=
  | ValueError
  | OverflowError
  | TypeError
  | AttributeError
  | OSError.

Inductive result (A : Type) : Type :=
  | Ok (a : A)
  | Err (e : exn).
Arguments Ok {A} a.
Arguments Err {A} e.

Definition is_err {A} (r : result A) : bool :=
  match r with Ok _ => false | Err _ => true end.

Definition rbind {A B} (r : result A) (k : A -> result B) : result B :=
  match r with Ok a => k a | Err e => Err e end.

(** [try: r / except: d] around a pure computation. *)
Definition except_default {A} (r : result A) (d : A) : A :=
  match r with Ok a => a | Err _ => d end.

Fixpoint mapM_result {A B} (f : A -> result B) (l : list A) : result (list B) :=
  match l with
  | [] => Ok []
  | x :: l' =>
      rbind (f x) (fun y => rbind (mapM_result f l') (fun ys => Ok (y :: ys)))
  end.

(** ** Python string operations *)

Module PyStr.

Definition in_range (lo hi : nat) (c : ascii) : bool :=
  let n := nat_of_ascii c in (lo <=? n)%nat && (n <=? hi)%nat.

(** [str.lower], on ASCII letters. *)
Definition lower_ascii (c : ascii) : ascii :=
  if in_range 65 90 c then ascii_of_nat (nat_of_ascii c + 32) else c.

Fixpoint lower (s : string) : string :=
  match s with
  | EmptyString => EmptyString
  | String c s' => String (lower_ascii c) (lower s')
  end.

(** [s.replace(c, '')] for a one-character [c]. *)
Fixpoint replace_del (c : ascii) (s : string) : string :=
  match s with
  | EmptyString => EmptyString
  | String d s' =>
      if Ascii.eqb c d then replace_del c s' else String d (replace_del c s')
  end.

(** [p in s] and [s.startswith(p)]. *)
Definition startswith (s p : string) : bool := String.prefix p s.

Fixpoint contains (p s : string) : bool :=
  match s with
  | EmptyString => String.prefix p EmptyString
  | String _ s' => String.prefix p s || contains p s'
  end.

(** [s.split(sep)] for a non-empty [sep]: [skip] counts the characters
    of a matched separator still to be passed over, [cur] is the piece
    being read, reversed. *)
Definition string_rev_of (cur : list ascii) : string :=
  string_of_list_ascii (rev cur).

Fixpoint split_aux (sep s : string) (skip : nat) (cur : list ascii) : list string :=
  match s with
  | EmptyString => [string_rev_of cur]
  | String c s' =>
      match skip with
      | S k => split_aux sep s' k cur
      | O =>
          if String.prefix sep s
          then string_rev_of cur :: split_aux sep s' (String.length sep - 1) []
          else split_aux sep s' 0 (c :: cur)
      end
  end.

Definition split (sep s : string) : list string := split_aux sep s 0 [].

(** [sep.join(l)]. *)
Definition join (sep : string) (l : list string) : string := String.concat sep l.

(** [s[:n]]. *)
Fixpoint take (n : nat) (s : string) : string :=
  match n, s with
  | S k, String c s' => String c (take k s')
  | _, _ => EmptyString
  end.

(** [c * n]. *)
Fixpoint repeat (c : ascii) (n : nat) : string :=
  match n with O => EmptyString | S k => String c (repeat c k) end.

(** White space as [str.strip] and [int] see it. *)
Definition is_space (c : ascii) : bool := in_range 9 13 c || in_range 28 32 c.

Fixpoint lstrip (s : string) : string :=
  match s with
  | EmptyString => EmptyString
  | String c s' => if is_space c then lstrip s' else s
  end.

Fixpoint rstrip (s : string) : string :=
  match s with
  | EmptyString => EmptyString
  | String c s' =>
      match rstrip s' with
      | EmptyString => if is_space c then EmptyString else String c EmptyString
      | r => String c r
      end
  end.

Definition strip (s : string) : string := rstrip (lstrip s).

(** [int(s)] in base 10: white space around, an optional sign, digits
    with single underscores between them.  On an ASCII string [int]
    skips only [\t \n \v \f \r] and the blank; [\x1c-\x1f], which
    [str.strip] removes, make it fail. *)
Definition is_int_space (c : ascii) : bool := in_range 9 13 c || Ascii.eqb c " ".

Fixpoint int_lstrip (s : string) : string :=
  match s with
  | EmptyString => EmptyString
  | String c s' => if is_int_space c then int_lstrip s' else s
  end.

Fixpoint int_rstrip (s : string) : string :=
  match s with
  | EmptyString => EmptyString
  | String c s' =>
      match int_rstrip s' with
      | EmptyString => if is_int_space c then EmptyString else String c EmptyString
      | r => String c r
      end
  end.

Definition digit_val (c : ascii) : option Z :=
  if in_range 48 57 c then Some (Z.of_nat (nat_of_ascii c - 48)) else None.

Fixpoint parse_digits (acc : Z) (after_digit : bool) (s : string) : option Z :=
  match s with
  | EmptyString => if after_digit then Some acc else None
  | String c s' =>
      match digit_val c with
      | Some d => parse_digits (10 * acc + d) true s'
      | None =>
          if Ascii.eqb c "_" && after_digit then parse_digits acc false s' else None
      end
  end.

Definition parse_unsigned (s : string) : result Z :=
  match parse_digits 0 false s with
  | Some z => Ok z
  | None => Err ValueError
  end.

Definition py_int (s : string) : result Z :=
  match int_rstrip (int_lstrip s) with
  | String c r =>
      if Ascii.eqb c "-" then rbind (parse_unsigned r) (fun z => Ok (- z))
      else if Ascii.eqb c "+" then parse_unsigned r
      else parse_unsigned (String c r)
  | EmptyString => Err ValueError
  end.

(** [str(n)] for integers, and the [:2d] format. *)
Definition of_Z (z : Z) : string := NilZero.string_of_int (Z.to_int z).
Definition of_nat (n : nat) : string := of_Z (Z.of_nat n).

Definition format_2d (z : Z) : string :=
  let s := of_Z z in
  repeat " " (2 - String.length s) +:+ s.

(** [s.replace(old, new)] for a non-empty [old]: the pieces between the
    occurrences of [old], left to right, joined by [new]. *)
Definition replace (old new s : string) : string := join new (split old s).

(** [''.join(c for c in s if f(c))]. *)
Fixpoint filter (f : ascii -> bool) (s : string) : string :=
  match s with
  | EmptyString => EmptyString
  | String c s' => if f c then String c (filter f s') else filter f s'
  end.

(** [all(f(c) for c in s)]. *)
Fixpoint all (f : ascii -> bool) (s : string) : bool :=
  match s with
  | EmptyString => true
  | String c s' => f c && all f s'
  end.

(** What [c.isalnum()] answers on the ASCII characters: a sample
    classifier, for the places where [str.isalnum] is a parameter. *)
Definition isalnum_ascii (c : ascii) : bool :=
  in_range 48 57 c || in_range 65 90 c || in_range 97 122 c.

End PyStr.

(** ** Cell values and row records *)

Inductive value : Type :=
  | VNone
  | VBool (b : bool)
  | VInt (z : Z)
  | VFloat (f : spec_float)
  | VStr (s : string).

(** [int(f)] for a float: truncation toward zero; NaN raises
    [ValueError], an infinity [OverflowError]. *)
Definition float_to_int (f : spec_float) : result Z :=
  match f with
  | S754_zero _ => Ok 0
  | S754_infinity _ => Err OverflowError
  | S754_nan => Err ValueError
  | S754_finite s m e =>
      let mag := Z.shiftl (Z.pos m) e in
      Ok (if s then - mag else mag)
  end.

Definition float_finite (f : spec_float) : bool :=
  match f with
  | S754_zero _ | S754_finite _ _ _ => true
  | S754_infinity _ | S754_nan => false
  end.

(** [f > 0] for a float. *)
Definition float_pos (f : spec_float) : bool :=
  match f with
  | S754_finite false _ _ | S754_infinity false => true
  | _ => false
  end.

Definition float_sign (f : spec_float) : bool :=
  match f with
  | S754_zero s | S754_infinity s | S754_finite s _ _ => s
  | S754_nan => false
  end.

Definition dict : Type := list (string * value).

(** [d.get(k)]: [None] here is the missing key. *)
Fixpoint dict_get (d : dict) (k : string) : option value :=
  match d with
  | [] => None
  | (k', v) :: d' => if String.eqb k' k then Some v else dict_get d' k
  end.

(** [d.get(k, default)]. *)
Definition dict_get_default (d : dict) (k : string) (default : value) : value :=
  match dict_get d k with Some v => v | None => default end.

(** [d[k] = v]: an existing key keeps its position, a new one goes last. *)
Fixpoint dict_set (k : string) (v : value) (d : dict) : dict :=
  match d with
  | [] => [(k, v)]
  | (k', v') :: d' =>
      if String.eqb k' k then (k', v) :: d' else (k', v') :: dict_set k v d'
  end.

Definition dict_keys (d : dict) : list string := map fst d.

(** Truth value of an object ([if not x]). *)
Definition truthy (v : value) : bool :=
  match v with
  | VNone => false
  | VBool b => b
  | VInt z => negb (z =? 0)
  | VFloat f => match f with S754_zero _ => false | _ => true end
  | VStr s => negb (String.eqb s EmptyString)
  end.

(** ** Column Normalizer *)

Definition column_mappings : list (string * string) :=
  [ ("reel", "url"); ("post_url", "url"); ("link", "url");
    ("views", "view_count"); ("view_count", "view_count");
    ("likes", "like_count"); ("like_count", "like_count");
    ("comments", "comment_count"); ("comment_count", "comment_count");
    ("profile", "profile_name"); ("username", "profile_name");
    ("account", "profile_name") ].

Fixpoint mapping_get (m : list (string * string)) (k default : string) : string :=
  match m with
  | [] => default
  | (k', v) :: m' => if String.eqb k' k then v else mapping_get m' k default
  end.

Definition normalized_key (key : string) : string :=
  mapping_get column_mappings (PyStr.lower key) (PyStr.lower key).

(** One round of the inner loop: [normalized_post[normalized_key] = value]. *)
Definition normalize_step (normalized_post : dict) (kv : string * value) : dict :=
  dict_set (normalized_key (fst kv)) (snd kv) normalized_post.

Definition normalize_post (post : dict) : dict :=
  fold_left normalize_step post [].

Definition normalize_column_names (posts : list dict) : list dict :=
  match posts with
  | [] => posts
  | _ => map normalize_post posts
  end.

(** A row as a reader returns it: the cells under their headers and,
    from [csv.DictReader] on a line longer than the header, the surplus
    cells under the key [None], which is the last key of the row. *)
Record row : Type := { cells : dict; surplus : option (list string) }.

Definition plain_row (d : dict) : row := {| cells := d; surplus := None |}.

(** The normalizer on a reader's rows: the string keys are rewritten as
    above; the key [None] has no [lower], so [key.lower()] raises
    [AttributeError] on the first row that has surplus cells. *)
Definition normalize_row (post : row) : result dict :=
  let normalized_post := normalize_post (cells post) in
  match surplus post with
  | Some _ => Err AttributeError
  | None => Ok normalized_post
  end.

Definition normalize_column_names_raw (posts : list row) : result (list dict) :=
  match posts with
  | [] => Ok []
  | _ => mapM_result normalize_row posts
  end.

(** ** Post Filter *)

(** ['/reel/' in url], which raises [TypeError] unless [url] is a string. *)
Definition str_in (p : string) (v : value) : result bool :=
  match v with
  | VStr s => Ok (PyStr.contains p s)
  | _ => Err TypeError
  end.

(** [view_count > 0]. *)
Definition gt_zero (v : value) : result bool :=
  match v with
  | VNone | VStr _ => Err TypeError
  | VBool b => Ok b
  | VInt z => Ok (0 <? z)
  | VFloat f => Ok (float_pos f)
  end.

(** The test of one record: [Ok true] when it is appended. *)
Definition is_video_post (post : dict) : result bool :=
  let url := dict_get_default post "url" (VStr "") in
  rbind (str_in "/reel/" url) (fun is_reel =>
  rbind (if is_reel then Ok true else str_in "/p/" url) (fun marked =>
  if marked then
    let view_count := dict_get_default post "view_count" (VInt 0) in
    let view_count :=
      match view_count with
      | VStr s => VInt (except_default (PyStr.py_int (PyStr.replace_del "," s)) 0)
      | _ => view_count
      end in
    rbind (gt_zero view_count) (fun positive =>
    if positive then Ok true else str_in "/reel/" url)
  else Ok false)).

Fixpoint filter_video_posts (posts : list dict) : result (list dict) :=
  match posts with
  | [] => Ok []
  | post :: rest =>
      rbind (is_video_post post) (fun keep =>
      rbind (filter_video_posts rest) (fun video_posts =>
      Ok (if keep then post :: video_posts else video_posts)))
  end.

Definition filter_non_pinned_posts (posts : list dict) : list dict :=
  if (length posts <=? 3)%nat then posts else drop 3 posts.

(** ** Ranker *)

Definition get_numeric_value (post : dict) (key : string) : result Z :=
  let value := dict_get_default post key (VInt 0) in
  match value with
  | VStr s =>
      Ok (except_default (PyStr.py_int (PyStr.replace_del " " (PyStr.replace_del "," s))) 0)
  | VBool b => Ok (Z.b2z b)
  | VInt z => Ok z
  | VFloat f => float_to_int f
  | VNone => Ok 0
  end.

(** [sorted(l, key=..., reverse=True)] on records decorated with their
    keys: descending, and stable. *)
Fixpoint insert_desc {A} (x : Z * A) (l : list (Z * A)) : list (Z * A) :=
  match l with
  | [] => [x]
  | y :: l' => if fst y <=? fst x then x :: l else y :: insert_desc x l'
  end.

Fixpoint sorted_desc {A} (l : list (Z * A)) : list (Z * A) :=
  match l with
  | [] => []
  | x :: l' => insert_desc x (sorted_desc l')
  end.

(** The body of the [try]: the keys are computed first, record by
    record, and the first failure is raised. *)
Definition sort_try_body (posts : list dict) (sort_by : string) : result (list dict) :=
  rbind (mapM_result (fun x => get_numeric_value x sort_by) posts) (fun keys =>
  Ok (map snd (sorted_desc (combine keys posts)))).

Definition sort_posts_by_metric (posts : list dict) (sort_by : string) : list dict :=
  except_default (sort_try_body posts sort_by) posts.

(** ** Selector *)

(** [l[:n]] for an integer [n]: a negative [n] counts from the end. *)
Definition slice_to {A} (l : list A) (n : Z) : list A :=
  if 0 <=? n then take (Z.to_nat n) l
  else take (Z.to_nat (Z.of_nat (length l) + n)) l.

Definition select_top_posts (posts : list dict) (count : Z) : list dict :=
  slice_to posts count.

(** ** The effect monad

    [M W A] is code that may change the world (files, clock, media
    pipeline) and may raise; a raised exception keeps the changes made
    so far. *)

Definition M (W A : Type) : Type := W -> result A * W.

Definition ret {W A} (a : A) : M W A := fun w => (Ok a, w).

Definition raise {W A} (e : exn) : M W A := fun w => (Err e, w).

Definition bind {W A B} (m : M W A) (k : A -> M W B) : M W B :=
  fun w => match m w with
           | (Ok a, w') => k a w'
           | (Err e, w') => (Err e, w')
           end.

(** [try: m / except Exception as e: h e]. *)
Definition try_except {W A} (m : M W A) (h : exn -> M W A) : M W A :=
  fun w => match m w with
           | (Ok a, w') => (Ok a, w')
           | (Err e, w') => h e w'
           end.

Definition lift_result {W A} (r : result A) : M W A := fun w => (r, w).

Notation "x <~ c ;; k" := (bind c (fun x => k))
  (at level 100, c at next level, right associativity).
Notation "c ;;; k" := (bind c (fun _ => k))
  (at level 100, right associativity).

(** [for x in l: acc = f acc x], with effects. *)
Fixpoint for_fold {W A B} (f : A -> B -> M W A) (l : list B) (acc : A) : M W A :=
  match l with
  | [] => ret acc
  | x :: l' => acc' <~ f acc x ;; for_fold f l' acc'
  end.

(** [enumerate(l, start)]. *)
Fixpoint enumerate {A} (start : nat) (l : list A) : list (nat * A) :=
  match l with
  | [] => []
  | x :: l' => (start, x) :: enumerate (S start) l'
  end.

(** ** External collaborators

    What the pipeline consumes through narrow interfaces: the two
    tabular parsers, the media pipeline object ([InstaTranscriber]),
    [pathlib], [tempfile], [csv] and [datetime]. *)

Class Externals (W : Type) : Type := {
  (** [pd.read_csv(f).to_dict('records')] *)
  pd_read_csv : string -> M W (list row);
  (** [list(csv.DictReader(open(f)))] *)
  csv_DictReader : string -> M W (list row);
  (** [CSVProfileTranscriber.__init__]: [mkdir] and [InstaTranscriber(...)] *)
  init_transcriber : string -> M W unit;
  (** [self.transcriber.process_url(url)] *)
  process_url : value -> M W bool;
  (** [self.transcriber.cleanup()] *)
  transcriber_cleanup : M W unit;
  (** [list(output_dir.glob("*.txt"))], as path strings *)
  glob_txt : string -> M W (list string);
  (** [max(files, key=lambda x: x.stat().st_mtime)] on a non-empty list *)
  latest_mtime : list string -> M W string;
  (** [open(p).read()] *)
  read_text : string -> M W string;
  (** [Path(p).exists()] *)
  path_exists : string -> M W bool;
  (** [open(p, 'w')] and the writes *)
  write_text : string -> string -> M W unit;
  (** [Path(p).unlink()] *)
  unlink : string -> M W unit;
  (** [datetime.now().strftime("%Y%m%d_%H%M%S")] *)
  now_stamp : M W string;
  (** [datetime.now().strftime('%Y-%m-%d %H:%M:%S')] *)
  now_pretty : M W string;
  (** [tempfile.NamedTemporaryFile(..., suffix='.csv', dir='/tmp')]: its name *)
  named_temporary_file : M W string;
  (** [csv.DictWriter]: header, rows, [close] *)
  csv_write : string -> list string -> list dict -> M W unit;
  (** [str(dir / name)], [Path(p).name], [Path(p).stem] *)
  path_join : string -> string -> string;
  path_name : string -> string;
  path_stem : string -> string;
  (** [str(f)] for a float *)
  float_str : spec_float -> string
}.

(** A per-post result, the dict built in [transcribe_posts]. *)
Record transcription : Type := {
  post_number : nat;
  url : value;
  transcription_text : string;
  csv_data : dict;
  file_path : string
}.

(** The object: only [output_dir] is read. *)
Record CSVProfileTranscriber : Type := { output_dir : string }.

(** The structured request of the alternate entry point; [None] is a
    key the request does not have. *)
Record request : Type := {
  req_posts : option (list dict);
  req_profile_name : option value;
  req_top_count : option Z;
  req_sort_by : option string;
  req_quick_transcribe : option bool
}.

Definition empty_request : request :=
  {| req_posts := None; req_profile_name := None; req_top_count := None;
     req_sort_by := None; req_quick_transcribe := None |}.

Record event : Type := { input : option request }.

(** [event.get('input', {})]. *)
Definition request_of (event : event) : request :=
  match input event with Some r => r | None => empty_request end.

(** The two shapes of the response: [{"success": False, "error": ...}]
    and the full one.  An error text is a literal or [str(e)]. *)
Inductive error_text : Type :=
  | ErrText (s : string)
  | ErrOf (e : exn).

Inductive response : Type :=
  | Failure (error : error_text)
  | Success (output_file : string) (output_text : option string)
            (filename : string) (profile_name : value) (message : string).

Definition success (r : response) : bool :=
  match r with Failure _ => false | Success _ _ _ _ _ => true end.

Definition newline : string := String (ascii_of_nat 10) EmptyString.

(** What a file opened for reading in text mode hands over: a carriage
    return, alone or followed by a line feed, is read as one line feed.
    [after_cr] tells that the character before was a carriage return.
    (Writing in text mode leaves line feeds alone on a POSIX system.) *)
Fixpoint newlines_go (after_cr : bool) (s : string) : string :=
  match s with
  | EmptyString => EmptyString
  | String c s' =>
      if Ascii.eqb c (ascii_of_nat 13) then String (ascii_of_nat 10) (newlines_go true s')
      else if Ascii.eqb c (ascii_of_nat 10) then
        if after_cr then newlines_go false s'
        else String c (newlines_go false s')
      else String c (newlines_go false s')
  end.

Definition universal_newlines (s : string) : string := newlines_go false s.

Section Pipeline.
Context {W : Type} `{Externals W}.

(** [str(v)], as the f-strings format a value. *)
Definition py_str (v : value) : string :=
  match v with
  | VNone => "None"
  | VBool true => "True"
  | VBool false => "False"
  | VInt z => PyStr.of_Z z
  | VFloat f => float_str f
  | VStr s => s
  end.

(** *** Tabular Reader *)
Definition read_csv_data (self : CSVProfileTranscriber) (csv_file : string)
  : M W (list row) :=
  try_except (pd_read_csv csv_file)
    (fun e => try_except (csv_DictReader csv_file) (fun e2 => ret [])).

(** *** Report Assembler *)
Definition extract_reel_id (url : value) : string :=
  except_default
    (rbind (str_in "/reel/" url) (fun is_reel =>
     match is_reel, url with
     | true, VStr s =>
         let parts := PyStr.split "/reel/" s in
         match parts with
         | _ :: part1 :: _ =>
             let reel_id :=
               hd "" (PyStr.split "?" (hd "" (PyStr.split "/" part1))) in
             Ok (PyStr.take 10 reel_id)
         | _ => Ok "unknown"
         end
     | _, _ => Ok "unknown"
     end))
    "unknown".

Definition cleanup_individual_files (self : CSVProfileTranscriber)
    (transcriptions : list transcription) : M W unit :=
  for_fold (fun (_ : unit) trans =>
      if negb (String.eqb (file_path trans) "") then
        let individual_file_path := path_join (output_dir self) (file_path trans) in
        try_except
          (present <~ path_exists individual_file_path ;;
           if present then unlink individual_file_path else ret tt)
          (fun e => ret tt)
      else ret tt)
    transcriptions tt ;;;
  try_except transcriber_cleanup (fun e => ret tt).

Definition rule (c : ascii) (n : nat) : string := PyStr.repeat c n +:+ newline.

Definition toc_entry (trans : transcription) : string :=
  let views := dict_get_default (csv_data trans) "view_count" (VStr "N/A") in
  let likes := dict_get_default (csv_data trans) "like_count" (VStr "N/A") in
  let comments := dict_get_default (csv_data trans) "comment_count" (VStr "N/A") in
  PyStr.format_2d (Z.of_nat (post_number trans)) +:+ ". Post "
    +:+ PyStr.of_nat (post_number trans) +:+ newline
  +:+ "    URL: " +:+ py_str (url trans) +:+ newline
  +:+ "    Views: " +:+ py_str views +:+ newline
  +:+ "    Likes: " +:+ py_str likes +:+ newline
  +:+ "    Comments: " +:+ py_str comments +:+ newline +:+ newline.

Definition detail_section (trans : transcription) : string :=
  "## POST #" +:+ PyStr.of_nat (post_number trans) +:+ newline
  +:+ rule "-" 60 +:+ newline
  +:+ "**URL:** " +:+ py_str (url trans) +:+ newline
  +:+ "**Views:** "
  +:+ py_str (dict_get_default (csv_data trans) "view_count" (VStr "N/A")) +:+ newline
  +:+ "**Likes:** "
  +:+ py_str (dict_get_default (csv_data trans) "like_count" (VStr "N/A")) +:+ newline
  +:+ "**Comments:** "
  +:+ py_str (dict_get_default (csv_data trans) "comment_count" (VStr "N/A")) +:+ newline
  +:+ (if negb (String.eqb (file_path trans) "")
       then "**Individual File:** " +:+ file_path trans +:+ newline else "")
  +:+ newline +:+ "**TRANSCRIPTION:**" +:+ newline
  +:+ rule "-" 20
  +:+ transcription_text trans +:+ newline +:+ newline
  +:+ rule "=" 80 +:+ newline.

Definition report_text (transcriptions : list transcription)
    (profile_name : value) (generated : string) : string :=
  "# Instagram Profile Transcription Report (CSV-Based)" +:+ newline
  +:+ rule "=" 80 +:+ newline
  +:+ "Profile: @" +:+ py_str profile_name +:+ newline
  +:+ "Generated: " +:+ generated +:+ newline
  +:+ "Total Posts Transcribed: " +:+ PyStr.of_nat (length transcriptions) +:+ newline
  +:+ "Source: CSV data import" +:+ newline +:+ newline
  +:+ "## Table of Contents" +:+ newline
  +:+ rule "-" 40 +:+ newline
  +:+ String.concat "" (map toc_entry transcriptions)
  +:+ rule "=" 80 +:+ newline
  +:+ String.concat "" (map detail_section transcriptions).

(** The batch name, with an optional suffix before the extension. *)
Definition batch_filename (profile_name : value) (n : nat) (suffix : string) : string :=
  py_str profile_name +:+ "top" +:+ PyStr.of_nat n +:+ "transcripts" +:+ suffix +:+ ".txt".

Definition quick_filename (profile_name : value) (reel_id timestamp : string) : string :=
  "quick_" +:+ py_str profile_name +:+ "_" +:+ reel_id +:+ "_" +:+ timestamp +:+ ".txt".

(** The name first computed: quick mode needs the flag and exactly
    one result. *)
Definition computed_filename (transcriptions : list transcription)
    (profile_name : value) (quick_transcribe : bool) : M W string :=
  match quick_transcribe, transcriptions with
  | true, [trans] =>
      let reel_id := extract_reel_id (url trans) in
      timestamp <~ now_stamp ;;
      ret (quick_filename profile_name reel_id timestamp)
  | _, _ => ret (batch_filename profile_name (length transcriptions) "")
  end.

(** The name written to: on a collision, the batch name with a time
    stamp, whatever the mode. *)
Definition final_filename (transcriptions : list transcription)
    (profile_name : value) (quick_transcribe : bool) (self : CSVProfileTranscriber)
  : M W string :=
  filename <~ computed_filename transcriptions profile_name quick_transcribe ;;
  let filepath := path_join (output_dir self) filename in
  taken <~ path_exists filepath ;;
  if taken then
    timestamp <~ now_stamp ;;
    ret (batch_filename profile_name (length transcriptions) ("_" +:+ timestamp))
  else ret filename.

Definition create_combined_document (self : CSVProfileTranscriber)
    (transcriptions : list transcription) (profile_name : value)
    (quick_transcribe : bool) : M W string :=
  filename <~ final_filename transcriptions profile_name quick_transcribe self ;;
  let filepath := path_join (output_dir self) filename in
  generated <~ now_pretty ;;
  write_text filepath (report_text transcriptions profile_name generated) ;;;
  cleanup_individual_files self transcriptions ;;;
  ret filepath.

(** *** Media loop *)

(** The text after the first line that starts with fifty dashes. *)
Fixpoint transcription_start_from (j : nat) (lines : list string) : nat :=
  match lines with
  | [] => 0
  | line :: rest =>
      if PyStr.startswith line (PyStr.repeat "-" 50) then S j
      else transcription_start_from (S j) rest
  end.

Definition extract_transcription (content : string) : string :=
  let lines := PyStr.split newline content in
  let transcription_start := transcription_start_from 0 lines in
  PyStr.strip (PyStr.join newline (drop transcription_start lines)).

(** One round of the loop: [Some] result when the post was transcribed
    and its file found, [None] when it was skipped or failed. *)
Definition transcribe_post (self : CSVProfileTranscriber) (i : nat) (post : dict)
  : M W (option transcription) :=
  let url := dict_get_default post "url" (VStr "") in
  if negb (truthy url) then ret None
  else
    try_except
      (success <~ process_url url ;;
       if success then
         transcription_files <~ glob_txt (output_dir self) ;;
         match transcription_files with
         | [] => ret None
         | _ =>
             latest_file <~ latest_mtime transcription_files ;;
             content <~ read_text latest_file ;;
             ret (Some {| post_number := i;
                          url := url;
                          transcription_text := extract_transcription content;
                          csv_data := post;
                          file_path := path_name latest_file |})
         end
       else ret None)
      (fun e => ret None).

Definition transcribe_loop (self : CSVProfileTranscriber) (posts : list dict)
  : M W (list transcription) :=
  for_fold (fun transcriptions ip =>
      r <~ transcribe_post self (fst ip) (snd ip) ;;
      ret (match r with
           | Some t => (transcriptions ++ [t])%list
           | None => transcriptions
           end))
    (enumerate 1 posts) [].

Definition transcribe_posts (self : CSVProfileTranscriber) (posts : list dict)
    (profile_name : value) (quick_transcribe : bool) : M W (option string) :=
  match posts with
  | [] => ret None
  | _ =>
      transcriptions <~ transcribe_loop self posts ;;
      match transcriptions with
      | [] => ret None
      | _ =>
          p <~ create_combined_document self transcriptions profile_name quick_transcribe ;;
          ret (Some p)
      end
  end.

(** *** The pipeline *)
Definition process_csv_file (self : CSVProfileTranscriber) (csv_file : string)
    (top_count : Z) (sort_by : string) (filter_pinned : bool)
    (profile_name : value) (quick_transcribe : bool) : M W (option string) :=
  posts <~ read_csv_data self csv_file ;;
  match posts with
  | [] => ret None
  | _ =>
      posts <~ lift_result (normalize_column_names_raw posts) ;;
      let profile_name :=
        if negb (truthy profile_name) then
          match posts with
          | post0 :: _ =>
              match dict_get post0 "profile_name" with
              | Some v => v
              | None => VStr (path_stem csv_file)
              end
          | [] => VStr (path_stem csv_file)
          end
        else profile_name in
      posts <~ lift_result (filter_video_posts posts) ;;
      match posts with
      | [] => ret None
      | _ =>
          let posts := if filter_pinned then filter_non_pinned_posts posts else posts in
          let posts := sort_posts_by_metric posts sort_by in
          let top_posts := select_top_posts posts top_count in
          transcribe_posts self top_posts profile_name quick_transcribe
      end
  end.

(** *** Alternate entry point *)
Definition fieldnames : list string := ["Profile"; "Reel"; "Views"; "Likes"; "Comments"].

Definition csv_row (profile_name : value) (post : dict) : dict :=
  [ ("Profile", profile_name);
    ("Reel", dict_get_default post "url" (VStr ""));
    ("Views", dict_get_default post "views" (VInt 0));
    ("Likes", dict_get_default post "likes" (VInt 0));
    ("Comments", dict_get_default post "comments" (VInt 0)) ].

Definition request_profile_name (request_data : request) : value :=
  match req_profile_name request_data with Some v => v | None => VStr "unknown" end.

Definition request_posts (request_data : request) : list dict :=
  match req_posts request_data with Some l => l | None => [] end.

(** From the temporary file to a ready transcriber. *)
Definition handler_setup (request_data : request) : M W (string * CSVProfileTranscriber) :=
  csv_path <~ named_temporary_file ;;
  let profile_name := request_profile_name request_data in
  csv_write csv_path fieldnames (map (csv_row profile_name) (request_posts request_data)) ;;;
  init_transcriber "extension_transcriptions" ;;;
  ret (csv_path, {| output_dir := "extension_transcriptions" |}).

(** [str(result_file)]. *)
Definition str_of_result_file (result_file : option string) : string :=
  match result_file with Some p => p | None => "None" end.

(** The body of the [try]. *)
Definition handler_body (event : event) : M W response :=
  let request_data := request_of event in
  match request_posts request_data with
  | [] => ret (Failure (ErrText "No posts provided"))
  | _ =>
      setup <~ handler_setup request_data ;;
      let csv_path := fst setup in
      let transcriber := snd setup in
      let profile_name := request_profile_name request_data in
      result_file <~ process_csv_file transcriber csv_path
          (match req_top_count request_data with Some n => n | None => 5 end)
          (match req_sort_by request_data with Some s => s | None => "view_count" end)
          false
          profile_name
          (match req_quick_transcribe request_data with Some b => b | None => false end) ;;
      present <~ match result_file with
                 | Some p => if String.eqb p "" then ret false else path_exists p
                 | None => ret false
                 end ;;
      out <~ match result_file, present with
             | Some p, true =>
                 output_text <~ read_text p ;;
                 ret (Some output_text, path_name p)
             | _, _ => ret (None, py_str profile_name +:+ "_transcription.txt")
             end ;;
      try_except (unlink csv_path) (fun e => ret tt) ;;;
      ret (Success (str_of_result_file result_file) (fst out) (snd out) profile_name
                   "Transcription completed successfully")
  end.

Definition handler (event : event) : M W response :=
  try_except (handler_body event) (fun e => ret (Failure (ErrOf e))).
End Pipeline.

(** ** Command line: the preview branch of [main]

    [--preview] runs the selection without the media pipeline and
    prints the selected records; the function returns the records it
    prints. *)

Section CommandLine.
Context {W : Type} `{Externals W}.

Definition main_preview (transcriber : CSVProfileTranscriber) (csv_file : string)
    (top : Z) (sort : string) (no_filter_pinned : bool) : M W (list dict) :=
  posts <~ read_csv_data transcriber csv_file ;;
  match posts with
  | [] => ret []
  | _ =>
      posts <~ lift_result (normalize_column_names_raw posts) ;;
      posts <~ lift_result (filter_video_posts posts) ;;
      let posts := if negb no_filter_pinned then filter_non_pinned_posts posts else posts in
      let posts := sort_posts_by_metric posts sort in
      let top_posts := select_top_posts posts top in
      ret top_posts
  end.
End CommandLine.

(** ** InstaTranscriber: URL check and transcription files

    [validators.url] is a parameter; the downloader, the audio
    extractor and the speech model stay behind [process_url]. *)

Definition supported_domains : list string :=
  [ "instagram.com"; "www.instagram.com";
    "tiktok.com"; "www.tiktok.com"; "vm.tiktok.com" ].

Definition is_valid_url (validators_url : string -> bool) (url : string) : bool :=
  if negb (validators_url url) then false
  else existsb (fun domain => PyStr.contains domain (PyStr.lower url)) supported_domains.

(** [c.isalnum() or c in '._-'], with [str.isalnum] as a parameter. *)
Definition safe_char (isalnum : ascii -> bool) (c : ascii) : bool :=
  isalnum c || PyStr.contains (String c EmptyString) "._-".

Definition safe_url (isalnum : ascii -> bool) (url : string) : string :=
  let safe_url := PyStr.replace "http://" "" (PyStr.replace "https://" "" url) in
  PyStr.take 50 (PyStr.filter (safe_char isalnum) safe_url).

Definition transcription_filename (isalnum : ascii -> bool) (timestamp url : string)
  : string :=
  "transcription_" +:+ timestamp +:+ "_" +:+ safe_url isalnum url +:+ ".txt".

(** What [save_transcription] writes: two lines of metadata, a rule of
    fifty dashes, an empty line, the transcription. *)
Definition transcription_file_text (url generated transcription : string) : string :=
  "Transcription from: " +:+ url +:+ newline
  +:+ "Generated on: " +:+ generated +:+ newline
  +:+ PyStr.repeat "-" 50 +:+ newline +:+ newline
  +:+ transcription.

Section InstaTranscriber.
Context {W : Type} `{Externals W}.

Definition save_transcription (isalnum : ascii -> bool) (output_dir : string)
    (transcription url : string) : M W string :=
  timestamp <~ now_stamp ;;
  let filename := transcription_filename isalnum timestamp url in
  let filepath := path_join output_dir filename in
  generated <~ now_pretty ;;
  write_text filepath (transcription_file_text url generated transcription) ;;;
  ret filepath.
End InstaTranscriber.

(** ** A small concrete world

    Files with a modification time, the tables the parsers find behind
    a path, the transcriptions the media pipeline can produce, and a
    clock that advances on every write. *)

Module Toy.

Record world : Type := {
  files : gmap string (nat * string);
  tables : gmap string (list dict);
  media : gmap string string;
  clock : nat
}.

Definition set_files (f : gmap string (nat * string)) (w : world) : world :=
  {| files := f; tables := tables w; media := media w; clock := clock w |}.

Definition set_tables (t : gmap string (list dict)) (w : world) : world :=
  {| files := files w; tables := t; media := media w; clock := clock w |}.

Definition tick (w : world) : world :=
  {| files := files w; tables := tables w; media := media w; clock := S (clock w) |}.

Definition read_table (p : string) : M world (list row) :=
  fun w => match tables w !! p with
           | Some rows => (Ok (map plain_row rows), w)
           | None => (Err OSError, w)
           end.

Definition write (p content : string) : M world unit :=
  fun w => (Ok tt, tick (set_files (<[p := (clock w, content)]> (files w)) w)).

Definition transcript_header : string :=
  "Transcription" +:+ newline +:+ PyStr.repeat "-" 50 +:+ newline.

Definition run_media (u : value) : M world bool :=
  fun w => match u with
           | VStr s =>
               match media w !! s with
               | Some text =>
                   (Ok true,
                    snd (write ("extension_transcriptions/t" +:+ PyStr.of_nat (clock w) +:+ ".txt")
                               (transcript_header +:+ text) w))
               | None => (Ok false, w)
               end
           | _ => (Err TypeError, w)
           end.

Definition endswith (s p : string) : bool :=
  let n := String.length s in
  let k := String.length p in
  (k <=? n)%nat && String.eqb (String.substring (n - k) k s) p.

Definition glob (dir : string) : M world (list string) :=
  fun w => (Ok (List.filter (fun p => PyStr.startswith p (dir +:+ "/") && endswith p ".txt")
                            (map fst (map_to_list (files w)))), w).

Definition mtime_of (w : world) (p : string) : nat :=
  match files w !! p with Some (t, _) => t | None => 0 end.

Definition latest (l : list string) : M world string :=
  fun w => match l with
           | [] => (Err ValueError, w)
           | p :: l' =>
               (Ok (fold_left (fun best q =>
                                 if (mtime_of w best <? mtime_of w q)%nat then q else best)
                              l' p), w)
           end.

Definition read (p : string) : M world string :=
  fun w => match files w !! p with
           | Some (_, content) => (Ok (universal_newlines content), w)
           | None => (Err OSError, w)
           end.

Definition exists_ (p : string) : M world bool :=
  fun w => (Ok (bool_decide (is_Some (files w !! p))), w).

Definition remove (p : string) : M world unit :=
  fun w => match files w !! p with
           | Some _ => (Ok tt, set_files (delete p (files w)) w)
           | None => (Err OSError, w)
           end.

Definition stamp : M world string :=
  fun w => (Ok ("T" +:+ PyStr.of_nat (clock w)), w).

Definition temp_file : M world string :=
  fun w => (Ok ("/tmp/tmp" +:+ PyStr.of_nat (clock w) +:+ ".csv"), tick w).

Definition write_table (p : string) (fields : list string) (rows : list dict)
  : M world unit :=
  fun w => (Ok tt, set_tables (<[p := rows]> (tables w)) w).

Definition name_of (p : string) : string := List.last (PyStr.split "/" p) "".

#[global] Instance externals : Externals world := {|
  pd_read_csv := read_table;
  csv_DictReader := read_table;
  init_transcriber := fun _ => ret tt;
  process_url := run_media;
  transcriber_cleanup := ret tt;
  glob_txt := glob;
  latest_mtime := latest;
  read_text := read;
  path_exists := exists_;
  write_text := write;
  unlink := remove;
  now_stamp := stamp;
  now_pretty := stamp;
  named_temporary_file := temp_file;
  csv_write := write_table;
  path_join := fun d n => d +:+ "/" +:+ n;
  path_name := name_of;
  path_stem := fun p => hd "" (PyStr.split "." (name_of p));
  float_str := fun f => match f with S754_nan => "nan" | _ => "float" end
|}.

Definition empty : world :=
  {| files := ∅; tables := ∅; media := ∅; clock := 0 |}.

(** A ragged file, [a,b / 1,2,3,4 / 5]: the structured parse gives up
    on the long line, the line-oriented one puts its surplus cells under
    the key [None] and fills the short line with [None]. *)
Definition ragged_rows : list row :=
  [ {| cells := [("a", VStr "1"); ("b", VStr "2")]; surplus := Some ["3"; "4"] |};
    {| cells := [("a", VStr "5"); ("b", VNone)]; surplus := None |} ].

Definition ragged : Externals world := {|
  pd_read_csv := fun _ => raise ValueError;
  csv_DictReader := fun _ => ret ragged_rows;
  init_transcriber := fun _ => ret tt;
  process_url := fun _ => ret false;
  transcriber_cleanup := ret tt;
  glob_txt := glob;
  latest_mtime := latest;
  read_text := read;
  path_exists := exists_;
  write_text := write;
  unlink := remove;
  now_stamp := stamp;
  now_pretty := stamp;
  named_temporary_file := temp_file;
  csv_write := write_table;
  path_join := fun d n => d +:+ "/" +:+ n;
  path_name := name_of;
  path_stem := fun p => hd "" (PyStr.split "." (name_of p));
  float_str := fun f => match f with S754_nan => "nan" | _ => "float" end
|}.


End Toy.

(** ** Vocabulary of the statements, and sample inputs *)

(** Values that carry no minus sign. *)
Definition no_minus_sign (v : value) : Prop :=
  match v with
  | VStr s => PyStr.contains "-" s = false
  | VInt z => 0 <= z
  | VFloat f => float_sign f = false
  | VNone | VBool _ => True
  end.

Definition post_negative : dict := [("view_count", VStr "-5")].

(** The coerced value of the sort field, 0 where the coercion raises. *)
Definition metric (sort_by : string) (post : dict) : Z :=
  except_default (get_numeric_value post sort_by) 0.

Definition coerces (sort_by : string) (post : dict) : Prop :=
  is_err (get_numeric_value post sort_by) = false.

(** A record next to its key, as [sorted] holds it. *)
Definition decorate (sort_by : string) (post : dict) : Z * dict :=
  (metric sort_by post, post).

(** Descending order of the keys. *)
Definition key_ge {A} (a b : Z * A) : Prop := fst b <= fst a.

(** What the spec asks of the ranker's output: neighbours have coerced
    values in descending order. *)
Definition ranked_descending (sort_by : string) (out : list dict) : Prop :=
  forall (i : nat) (a b : dict),
    out !! i = Some a -> out !! S i = Some b ->
    exists x y, get_numeric_value a sort_by = Ok x
             /\ get_numeric_value b sort_by = Ok y /\ y <= x.

(** Three records, the last with an empty cell read as NaN. *)
Definition posts_nan : list dict :=
  [ [("url", VStr "https://www.instagram.com/a/reel/A/"); ("view_count", VInt 1)];
    [("url", VStr "https://www.instagram.com/a/reel/B/"); ("view_count", VInt 5)];
    [("url", VStr "https://www.instagram.com/a/reel/C/"); ("view_count", VFloat S754_nan)] ].

(** The five rows of end-to-end scenario A, normalized. *)
Definition reel_row (id views : string) : dict :=
  [ ("profile_name", VStr "alice");
    ("url", VStr ("https://www.instagram.com/alice/reel/" +:+ id +:+ "/"));
    ("view_count", VStr views) ].

Definition posts_scenario_a : list dict :=
  [ reel_row "A1" "1,000"; reel_row "A2" "50"; reel_row "A3" "2,000";
    reel_row "A4" "0"; reel_row "A5" "10" ].

(** The video filter returns whenever every [url] is a string (or
    missing) and no [view_count] is [None]. *)
Definition filterable (post : dict) : Prop :=
  (exists s, dict_get_default post "url" (VStr "") = VStr s)
  /\ dict_get post "view_count" <> Some VNone.

(** A normalized record: distinct keys, each one left alone by the
    normalizer. *)
Definition normal (d : dict) : Prop :=
  NoDup (dict_keys d) /\ Forall (fun k => normalized_key k = k) (dict_keys d).

(** A raw row as the readers give it, with a synonym and its canonical
    column side by side. *)
Definition raw_row : dict :=
  [ ("Profile", VStr "alice"); ("Reel", VStr "https://www.instagram.com/alice/reel/A1/");
    ("Views", VStr "1,000"); ("Caption", VNone); ("view_count", VInt 7) ].

(** One finished transcription of a reel of alice, and three of them. *)
Definition result_of (n : nat) (id : string) : transcription :=
  {| post_number := n;
     url := VStr ("https://www.instagram.com/alice/reel/" +:+ id +:+ "/?igsh=1");
     transcription_text := "hello";
     csv_data := reel_row id "1,000";
     file_path := "" |}.

Definition three_results : list transcription :=
  [result_of 1 "A1"; result_of 2 "A2"; result_of 3 "A3"].

Definition extension_dir : CSVProfileTranscriber :=
  {| output_dir := "extension_transcriptions" |}.

(** A world whose output directory already holds the file [name]. *)
Definition world_with_file (name : string) : Toy.world :=
  {| Toy.files := {[ "extension_transcriptions/" +:+ name := (0%nat, "earlier report") ]};
     Toy.tables := ∅; Toy.media := ∅; Toy.clock := 1 |}.

(** A request for one reel of alice. *)
Definition one_reel_request : request :=
  {| req_posts := Some [[ ("url", VStr "https://www.instagram.com/alice/reel/A1/");
                          ("views", VInt 1000) ]];
     req_profile_name := Some (VStr "alice");
     req_top_count := None; req_sort_by := None; req_quick_transcribe := None |}.

(** The value a normalized record holds under [k]: that of the last
    column of the row whose normalized name is [k]. *)
Fixpoint last_written (k : string) (post : dict) : option value :=
  match post with
  | [] => None
  | (k', v) :: rest =>
      match last_written k rest with
      | Some v' => Some v'
      | None => if String.eqb (normalized_key k') k then Some v else None
      end
  end.

(** A record the video filter can keep: its [url] is a string with a
    reel or post marker. *)
Definition has_video_url (post : dict) : Prop :=
  exists s, dict_get post "url" = Some (VStr s)
    /\ (PyStr.contains "/reel/" s = true \/ PyStr.contains "/p/" s = true).

(** A record on which the video filter raises: a [url] cell that is not
    a string, or a marked url next to a [None] view count. *)
Definition raises_in_filter (post : dict) : Prop :=
  (exists v, dict_get post "url" = Some v /\ forall s, v <> VStr s)
  \/ (has_video_url post /\ dict_get post "view_count" = Some VNone).

(** View counts on which filter and ranker are compared: no float, no
    [None], no blank inside a string. *)
Definition plain_count (v : option value) : Prop :=
  match v with
  | Some (VStr s) => PyStr.contains " " s = false
  | Some (VFloat _) | Some VNone => False
  | Some (VInt _) | Some (VBool _) | None => True
  end.

(** Rows whose second [url] cell was empty in the file and read as NaN. *)
Definition posts_empty_url : list dict :=
  [ reel_row "A1" "1,000";
    [("profile_name", VStr "alice"); ("url", VFloat S754_nan); ("view_count", VInt 5)] ].

(** A result of the media loop that belongs to the selected posts: its
    number is the 1-based position of its record, its url that record's
    non-empty [url]. *)
Definition transcribed_from (posts : list dict) (t : transcription) : Prop :=
  (1 <= post_number t)%nat
  /\ posts !! (post_number t - 1)%nat = Some (csv_data t)
  /\ url t = dict_get_default (csv_data t) "url" (VStr "")
  /\ truthy (url t) = true.

(** A record the video filter drops without raising: no [url], or a
    string without marker. *)
Definition no_video_url (post : dict) : Prop :=
  match dict_get post "url" with
  | None => True
  | Some (VStr s) => PyStr.contains "/reel/" s = false /\ PyStr.contains "/p/" s = false
  | Some _ => False
  end.

(** A table of two rows without any post url. *)
Definition world_without_videos : Toy.world :=
  {| Toy.files := ∅;
     Toy.tables := {[ "notes.csv" := [ [("Profile", VStr "alice"); ("Reel", VStr "https://example.org/")];
                                       [("Profile", VStr "alice"); ("Caption", VStr "hello")] ] ]};
     Toy.media := ∅; Toy.clock := 0 |}.

(** A table with an empty url cell. *)
Definition world_bad_table : Toy.world :=
  {| Toy.files := ∅; Toy.tables := {[ "bad.csv" := posts_empty_url ]};
     Toy.media := ∅; Toy.clock := 0 |}.

(** The table of scenario A behind [in.csv], raw headers included. *)
Definition raw_reel_row (id views : string) : dict :=
  [ ("Profile", VStr "alice");
    ("Reel", VStr ("https://www.instagram.com/alice/reel/" +:+ id +:+ "/"));
    ("Views", VStr views) ].

Definition world_scenario_a : Toy.world :=
  {| Toy.files := ∅;
     Toy.tables := {[ "in.csv" := [ raw_reel_row "A1" "1,000"; raw_reel_row "A2" "50";
                                    raw_reel_row "A3" "2,000"; raw_reel_row "A4" "0";
                                    raw_reel_row "A5" "10" ] ]};
     Toy.media := ∅; Toy.clock := 0 |}.



(** The integer part of a float, toward zero: for [(-1)^s * m * 2^e]
    the quotient of the signed numerator by the denominator. *)
Definition truncates_to (f : spec_float) (z : Z) : Prop :=
  match f with
  | S754_zero _ => z = 0
  | S754_finite s m e =>
      z = Z.quot ((if s then -1 else 1) * Z.pos m * 2 ^ Z.max e 0) (2 ^ Z.max (- e) 0)
  | S754_infinity _ | S754_nan => False
  end.

(** A row with surplus cells, under the key [None]. *)
Definition has_surplus (r : row) : Prop := surplus r <> None.

(** * Properties *)

(** ** Strings *)

Lemma lower_ascii_idem (c : ascii) :
  PyStr.lower_ascii (PyStr.lower_ascii c) = PyStr.lower_ascii c.
Proof. destruct c as [[] [] [] [] [] [] [] []]; reflexivity. Qed.

Lemma lower_idem (s : string) : PyStr.lower (PyStr.lower s) = PyStr.lower s.
Proof.
  induction s as [|c s IH]; simpl; [reflexivity|].
  now rewrite lower_ascii_idem, IH.
Qed.

Lemma digit_val_nonneg (c : ascii) (d : Z) : PyStr.digit_val c = Some d -> 0 <= d.
Proof.
  unfold PyStr.digit_val. destruct (PyStr.in_range 48 57 c); [|discriminate].
  intros [= <-]. lia.
Qed.

Lemma parse_digits_nonneg (s : string) :
  forall acc b z, 0 <= acc -> PyStr.parse_digits acc b s = Some z -> 0 <= z.
Proof.
  induction s as [|c s IH]; intros acc b z Hacc; simpl.
  - destruct b; [intros [= <-]; assumption | discriminate].
  - destruct (PyStr.digit_val c) as [d|] eqn:Hd.
    + apply IH. apply digit_val_nonneg in Hd. lia.
    + destruct (Ascii.eqb c "_" && b); [apply IH; assumption | discriminate].
Qed.

Lemma parse_unsigned_nonneg (s : string) (z : Z) :
  PyStr.parse_unsigned s = Ok z -> 0 <= z.
Proof.
  unfold PyStr.parse_unsigned.
  destruct (PyStr.parse_digits 0 false s) as [y|] eqn:E; [|discriminate].
  intros [= <-]. eapply parse_digits_nonneg; [|exact E]. lia.
Qed.

(** A one-character pattern occurs in [s] iff it is one of its characters. *)
Lemma contains_char_cons (c d : ascii) (s : string) :
  PyStr.contains (String c EmptyString) (String d s)
  = Ascii.eqb c d || PyStr.contains (String c EmptyString) s.
Proof.
  simpl. destruct (ascii_dec c d) as [->|Hne].
  - rewrite Ascii.eqb_refl. now destruct s.
  - apply Ascii.eqb_neq in Hne. now rewrite Hne.
Qed.

Lemma contains_char_nil (c : ascii) :
  PyStr.contains (String c EmptyString) EmptyString = false.
Proof. reflexivity. Qed.

Lemma absent_replace_del (c d : ascii) (s : string) :
  PyStr.contains (String c EmptyString) s = false ->
  PyStr.contains (String c EmptyString) (PyStr.replace_del d s) = false.
Proof.
  induction s as [|x s IH]; [trivial|].
  rewrite contains_char_cons. intros [Hx Hs]%orb_false_elim.
  cbn [PyStr.replace_del]. destruct (Ascii.eqb d x); [auto|].
  rewrite contains_char_cons, Hx. auto.
Qed.

Lemma absent_lstrip (c : ascii) (s : string) :
  PyStr.contains (String c EmptyString) s = false ->
  PyStr.contains (String c EmptyString) (PyStr.lstrip s) = false.
Proof.
  induction s as [|x s IH]; [trivial|].
  intros Hc. cbn [PyStr.lstrip]. destruct (PyStr.is_space x); [|exact Hc].
  rewrite contains_char_cons in Hc. apply orb_false_elim in Hc as [_ Hs]. auto.
Qed.

Lemma absent_rstrip (c : ascii) (s : string) :
  PyStr.contains (String c EmptyString) s = false ->
  PyStr.contains (String c EmptyString) (PyStr.rstrip s) = false.
Proof.
  induction s as [|x s IH]; [trivial|].
  rewrite contains_char_cons. intros [Hx Hs]%orb_false_elim.
  cbn [PyStr.rstrip]. specialize (IH Hs).
  destruct (PyStr.rstrip s) as [|y r].
  - destruct (PyStr.is_space x); [reflexivity|].
    now rewrite contains_char_cons, Hx.
  - now rewrite contains_char_cons, Hx, IH.
Qed.

Lemma absent_int_lstrip (c : ascii) (s : string) :
  PyStr.contains (String c EmptyString) s = false ->
  PyStr.contains (String c EmptyString) (PyStr.int_lstrip s) = false.
Proof.
  induction s as [|x s IH]; [trivial|].
  intros Hc. cbn [PyStr.int_lstrip]. destruct (PyStr.is_int_space x); [|exact Hc].
  rewrite contains_char_cons in Hc. apply orb_false_elim in Hc as [_ Hs]. auto.
Qed.

Lemma absent_int_rstrip (c : ascii) (s : string) :
  PyStr.contains (String c EmptyString) s = false ->
  PyStr.contains (String c EmptyString) (PyStr.int_rstrip s) = false.
Proof.
  induction s as [|x s IH]; [trivial|].
  rewrite contains_char_cons. intros [Hx Hs]%orb_false_elim.
  cbn [PyStr.int_rstrip]. specialize (IH Hs).
  destruct (PyStr.int_rstrip s) as [|y r].
  - destruct (PyStr.is_int_space x); [reflexivity|].
    now rewrite contains_char_cons, Hx.
  - now rewrite contains_char_cons, Hx, IH.
Qed.

(** Without a minus sign, [int] gives no negative number. *)
Lemma py_int_nonneg (s : string) (z : Z) :
  PyStr.contains "-" s = false -> PyStr.py_int s = Ok z -> 0 <= z.
Proof.
  intros Hs. unfold PyStr.py_int.
  pose proof (absent_int_rstrip _ _ (absent_int_lstrip _ _ Hs)) as Hr.
  destruct (PyStr.int_rstrip (PyStr.int_lstrip s)) as [|c r]; [discriminate|].
  rewrite contains_char_cons in Hr. apply orb_false_elim in Hr as [Hc _].
  rewrite Ascii.eqb_sym, Hc.
  destruct (Ascii.eqb c "+"); apply parse_unsigned_nonneg.
Qed.

Lemma shiftl_pos_nonneg (m : positive) (e : Z) : 0 <= Z.shiftl (Z.pos m) e.
Proof. apply Z.shiftl_nonneg. lia. Qed.

(** ** Numeric coercion *)

(** C1, as stated, fails: the string "-5" coerces to the negative
    integer -5. *)
Lemma get_numeric_value_negative :
  ~ (exists z, get_numeric_value post_negative "view_count" = Ok z /\ 0 <= z).
Proof.
  intros [z [Hz Hpos]]. vm_compute in Hz. injection Hz as <-. lia.
Qed.

Lemma float_to_int_truncates (f : spec_float) (z : Z) :
  float_to_int f = Ok z -> truncates_to f z.
Proof.
  destruct f as [sg|sg| |sg m e]; simpl; try discriminate.
  - now intros [= <-].
  - intros [= <-]. destruct (Z.le_gt_cases 0 e) as [He|He].
    + rewrite Z.shiftl_mul_pow2 by exact He.
      rewrite (Z.max_l e 0), (Z.max_r (- e) 0) by lia.
      change (2 ^ 0) with 1. rewrite Z.quot_1_r. destruct sg; lia.
    + rewrite Z.shiftl_div_pow2 by lia.
      rewrite (Z.max_r e 0), (Z.max_l (- e) 0) by lia.
      change (2 ^ 0) with 1.
      assert (Hden : 0 < 2 ^ (- e)) by (apply Z.pow_pos_nonneg; lia).
      destruct sg.
      * replace (-1 * Z.pos m * 1) with (- Z.pos m) by lia.
        rewrite Z.quot_opp_l by lia. rewrite Z.quot_div_nonneg by lia. reflexivity.
      * replace (1 * Z.pos m * 1) with (Z.pos m) by lia.
        rewrite Z.quot_div_nonneg by lia. reflexivity.
Qed.

(** C1 (amended): unless the field holds a NaN or an infinity,
    [get_numeric_value] returns an integer without raising.  It is 0
    for a missing key, for [None] and for a string that fails to parse
    once commas and blanks are removed; it is the parsed number for a
    string that parses, the int itself, 0 or 1 for a bool, and the
    integer part toward zero for a float.  It is non-negative whenever
    the value carries no minus sign. *)
Theorem get_numeric_value_total (post : dict) (key : string) :
  (forall f, dict_get post key = Some (VFloat f) -> float_finite f = true) ->
  exists z, get_numeric_value post key = Ok z
    /\ (dict_get post key = None -> z = 0)
    /\ (dict_get post key = Some VNone -> z = 0)
    /\ (forall s, dict_get post key = Some (VStr s) ->
          is_err (PyStr.py_int (PyStr.replace_del " " (PyStr.replace_del "," s))) = true ->
          z = 0)
    /\ (forall s n, dict_get post key = Some (VStr s) ->
          PyStr.py_int (PyStr.replace_del " " (PyStr.replace_del "," s)) = Ok n ->
          z = n)
    /\ (forall n, dict_get post key = Some (VInt n) -> z = n)
    /\ (forall b, dict_get post key = Some (VBool b) -> z = if b then 1 else 0)
    /\ (forall f, dict_get post key = Some (VFloat f) -> truncates_to f z)
    /\ (forall v, dict_get post key = Some v -> no_minus_sign v -> 0 <= z).
Proof.
  intros Hfin. unfold get_numeric_value, dict_get_default.
  destruct (dict_get post key) as [v|] eqn:Hget.
  - destruct v as [|b|z|f|s].
    + exists 0. repeat split; try congruence; intros; lia.
    + exists (Z.b2z b). repeat split; try congruence.
      * intros b' [= <-]. now destruct b.
      * intros v [= <-] _. destruct b; simpl; lia.
    + exists z. repeat split; try congruence. now intros v [= <-] Hv.
    + specialize (Hfin f eq_refl).
      destruct (float_to_int f) as [z|e] eqn:Hz;
        [|destruct f; simpl in *; discriminate].
      exists z. repeat split; try congruence.
      * intros f' [= <-]. now apply float_to_int_truncates.
      * intros v [= <-] Hv. simpl in Hv.
        destruct f as [sg|sg| |sg m e]; simpl in *; try discriminate.
        -- injection Hz as <-. lia.
        -- injection Hz as <-. subst sg. apply shiftl_pos_nonneg.
    + eexists. split; [reflexivity|]. repeat split; try congruence.
      * intros s' [= <-] He.
        destruct (PyStr.py_int _); [discriminate | reflexivity].
      * intros s' n [= <-] Hn. now rewrite Hn.
      * intros v [= <-] Hv. simpl in Hv.
        destruct (PyStr.py_int _) as [y|] eqn:E; simpl; [|lia].
        eapply py_int_nonneg; [|exact E].
        now apply absent_replace_del, absent_replace_del.
  - exists 0. repeat split; try congruence; intros; lia.
Qed.

Lemma get_numeric_value_total_witness :
  exists z, get_numeric_value [("view_count", VStr "1, 000")] "view_count" = Ok z
    /\ z = 1000 /\ 0 <= z.
Proof.
  destruct (get_numeric_value_total [("view_count", VStr "1, 000")] "view_count")
    as [z [Hz [_ [_ [_ [Hparsed [_ [_ [_ Hpos]]]]]]]]].
  - intros f Hf. vm_compute in Hf. discriminate.
  - exists z. split; [exact Hz|]. split.
    + apply (Hparsed "1, 000"); reflexivity.
    + eapply Hpos; reflexivity.
Defined.

(** The coercion on the forms the spec lists. *)
Example get_numeric_value_forms :
  map (fun v => get_numeric_value [("view_count", v)] "view_count")
      [ VStr "1,000"; VStr " 2 000 "; VStr "n/a"; VStr "1.5"; VInt 42;
        VFloat (S754_finite false 5 (-1)); VBool true; VNone ]
  = [Ok 1000; Ok 2000; Ok 0; Ok 0; Ok 42; Ok 2; Ok 1; Ok 0]
  /\ get_numeric_value [] "view_count" = Ok 0.
Proof. split; reflexivity. Qed.

(** A NaN or an infinity raises inside the coercion. *)
Example get_numeric_value_nonfinite :
  get_numeric_value [("view_count", VFloat S754_nan)] "view_count" = Err ValueError
  /\ get_numeric_value [("view_count", VFloat (S754_infinity false))] "view_count"
     = Err OverflowError.
Proof. split; reflexivity. Qed.

(** ** Ranker *)

Lemma mapM_result_ok {A B} (f : A -> result B) (d : B) (l : list A) :
  Forall (fun x => is_err (f x) = false) l ->
  mapM_result f l = Ok (map (fun x => except_default (f x) d) l).
Proof.
  induction 1 as [|x l Hx _ IH]; simpl; [reflexivity|].
  rewrite IH. destruct (f x); [reflexivity | discriminate].
Qed.

Lemma mapM_result_err {A B} (f : A -> result B) (l : list A) :
  Exists (fun x => is_err (f x) = true) l <-> is_err (mapM_result f l) = true.
Proof.
  induction l as [|x l IH]; simpl.
  - split; [intros HE; inversion HE | discriminate].
  - rewrite Exists_cons, IH. destruct (f x) as [y|e]; simpl.
    + destruct (mapM_result f l); simpl; intuition discriminate.
    + intuition.
Qed.

Lemma combine_decorate (sort_by : string) (posts : list dict) :
  combine (map (metric sort_by) posts) posts = map (decorate sort_by) posts.
Proof. induction posts as [|p l IH]; simpl; [reflexivity | now rewrite IH]. Qed.

Section SortedDesc.
Context {A : Type}.
Implicit Types (x y : Z * A) (l : list (Z * A)).

Lemma insert_desc_perm x l : insert_desc x l ≡ₚ x :: l.
Proof.
  induction l as [|y l IH]; simpl; [reflexivity|].
  destruct (fst y <=? fst x); [reflexivity|].
  rewrite IH. apply Permutation_swap.
Qed.

Lemma sorted_desc_perm l : sorted_desc l ≡ₚ l.
Proof.
  induction l as [|x l IH]; simpl; [reflexivity|].
  now rewrite insert_desc_perm, IH.
Qed.

Lemma insert_desc_sorted x l :
  StronglySorted key_ge l -> StronglySorted key_ge (insert_desc x l).
Proof.
  induction 1 as [|y l Hl IH Hy]; simpl.
  - repeat constructor.
  - destruct (fst y <=? fst x) eqn:E.
    + apply Z.leb_le in E. constructor; [now constructor|].
      constructor; [exact E|].
      eapply Forall_impl; [exact Hy|]. unfold key_ge. intros z Hz. lia.
    + apply Z.leb_gt in E. constructor; [exact IH|].
      rewrite insert_desc_perm. constructor; [|exact Hy]. unfold key_ge. lia.
Qed.

Lemma sorted_desc_sorted l : StronglySorted key_ge (sorted_desc l).
Proof.
  induction l as [|x l IH]; simpl; [constructor | now apply insert_desc_sorted].
Qed.

(** Stability: the records of any one key keep their order. *)
Lemma insert_desc_stable (k : Z) x l :
  List.filter (fun y => fst y =? k) (insert_desc x l)
  = List.filter (fun y => fst y =? k) (x :: l).
Proof.
  induction l as [|y l IH]; [reflexivity|].
  cbn [insert_desc]. destruct (fst y <=? fst x) eqn:E; [reflexivity|].
  apply Z.leb_gt in E. cbn [List.filter] in *. rewrite IH.
  destruct (fst x =? k) eqn:Ex, (fst y =? k) eqn:Ey; try reflexivity.
  apply Z.eqb_eq in Ex, Ey. lia.
Qed.

Lemma sorted_desc_stable (k : Z) l :
  List.filter (fun y => fst y =? k) (sorted_desc l)
  = List.filter (fun y => fst y =? k) l.
Proof.
  induction l as [|x l IH]; [reflexivity|].
  cbn [sorted_desc]. rewrite insert_desc_stable. cbn [List.filter].
  now rewrite IH.
Qed.

Lemma strongly_sorted_adjacent l (i : nat) x y :
  StronglySorted key_ge l -> l !! i = Some x -> l !! S i = Some y -> key_ge x y.
Proof.
  intros Hl. revert i. induction Hl as [|z l Hl IH Hz]; intros i Hx Hy.
  - discriminate.
  - destruct i as [|i]; simpl in *.
    + injection Hx as <-. rewrite Forall_forall in Hz. apply Hz.
      eapply list_elem_of_lookup_2. exact Hy.
    + eapply IH; eassumption.
Qed.
End SortedDesc.

(** The sorted, decorated list is the decoration of its projection. *)
Lemma sorted_decorated (sort_by : string) (posts : list dict) :
  sorted_desc (map (decorate sort_by) posts)
  = map (decorate sort_by) (map snd (sorted_desc (map (decorate sort_by) posts))).
Proof.
  assert (Hall : Forall (fun y => y = decorate sort_by (snd y))
                        (sorted_desc (map (decorate sort_by) posts))).
  { rewrite sorted_desc_perm. apply Forall_forall. intros y Hy.
    apply list_elem_of_fmap in Hy as [p [-> _]]. reflexivity. }
  induction Hall as [|y l Hy _ IH]; simpl; [reflexivity|].
  now rewrite <- IH, <- Hy.
Qed.

Lemma filter_decorated (sort_by : string) (k : Z) (l : list dict) :
  map snd (List.filter (fun y => fst y =? k) (map (decorate sort_by) l))
  = List.filter (fun p => metric sort_by p =? k) l.
Proof.
  induction l as [|p l IH]; simpl; [reflexivity|].
  destruct (metric sort_by p =? k); simpl; now rewrite IH.
Qed.

Lemma sort_try_body_ok (posts : list dict) (sort_by : string) :
  Forall (coerces sort_by) posts ->
  sort_try_body posts sort_by
  = Ok (map snd (sorted_desc (map (decorate sort_by) posts))).
Proof.
  intros Hall. unfold sort_try_body.
  rewrite (mapM_result_ok _ 0 posts Hall). simpl.
  now rewrite <- combine_decorate.
Qed.

Lemma sort_try_body_raises (posts : list dict) (sort_by : string) :
  is_err (sort_try_body posts sort_by) = true
  <-> Exists (fun p => is_err (get_numeric_value p sort_by) = true) posts.
Proof.
  rewrite mapM_result_err. unfold sort_try_body.
  now destruct (mapM_result _ posts).
Qed.

(** C2, as stated, fails: with a NaN cell the coercion raises, the
    ranker falls back to the input order, and 1 stands before 5. *)
Lemma sort_posts_by_metric_not_descending :
  ~ ranked_descending "view_count" (sort_posts_by_metric posts_nan "view_count").
Proof.
  intros Hdesc.
  destruct (Hdesc 0%nat _ _ eq_refl eq_refl) as [x [y [Hx [Hy Hle]]]].
  vm_compute in Hx, Hy. injection Hx as <-. injection Hy as <-. lia.
Qed.

(** C2 (amended): when the coercion of the sort field succeeds on every
    record, the ranker returns the records in descending order of the
    coerced value, and records of equal value keep their input order. *)
Theorem sort_posts_by_metric_descending_stable (posts : list dict) (sort_by : string) :
  Forall (coerces sort_by) posts ->
  sort_posts_by_metric posts sort_by ≡ₚ posts
  /\ ranked_descending sort_by (sort_posts_by_metric posts sort_by)
  /\ (forall k : Z,
        List.filter (fun p => metric sort_by p =? k) (sort_posts_by_metric posts sort_by)
        = List.filter (fun p => metric sort_by p =? k) posts).
Proof.
  intros Hall. unfold sort_posts_by_metric.
  rewrite (sort_try_body_ok _ _ Hall). cbn [except_default].
  set (srt := sorted_desc (map (decorate sort_by) posts)).
  assert (Hperm : map snd srt ≡ₚ posts).
  { unfold srt. rewrite sorted_desc_perm, map_map. simpl. now rewrite map_id. }
  assert (Hdec : srt = map (decorate sort_by) (map snd srt))
    by apply sorted_decorated.
  split; [exact Hperm|]. split.
  - intros i a b Ha Hb.
    assert (Hin : forall p, p ∈ map snd srt -> coerces sort_by p).
    { intros p Hp. rewrite Hperm in Hp. rewrite Forall_forall in Hall.
      now apply Hall. }
    assert (Hca : coerces sort_by a) by (eapply Hin, list_elem_of_lookup_2; exact Ha).
    assert (Hcb : coerces sort_by b) by (eapply Hin, list_elem_of_lookup_2; exact Hb).
    assert (Hge : key_ge (decorate sort_by a) (decorate sort_by b)).
    { apply (strongly_sorted_adjacent srt i); [apply sorted_desc_sorted | |];
        rewrite Hdec, list_lookup_fmap; [now rewrite Ha | now rewrite Hb]. }
    unfold key_ge, decorate, metric, coerces in *. simpl in Hge.
    destruct (get_numeric_value a sort_by) as [x|]; [|discriminate].
    destruct (get_numeric_value b sort_by) as [y|]; [|discriminate].
    exists x, y. auto.
  - intros k.
    rewrite <- (filter_decorated sort_by k (map snd srt)), <- Hdec.
    unfold srt. rewrite sorted_desc_stable. apply filter_decorated.
Qed.

Lemma sort_posts_by_metric_descending_stable_witness :
  sort_posts_by_metric posts_scenario_a "view_count" ≡ₚ posts_scenario_a
  /\ ranked_descending "view_count" (sort_posts_by_metric posts_scenario_a "view_count")
  /\ (forall k : Z,
        List.filter (fun p => metric "view_count" p =? k)
                    (sort_posts_by_metric posts_scenario_a "view_count")
        = List.filter (fun p => metric "view_count" p =? k) posts_scenario_a).
Proof.
  apply (sort_posts_by_metric_descending_stable posts_scenario_a "view_count").
  repeat constructor.
Defined.

(** Scenario A: the top two by view count are the rows with 2000 and
    1000 views, in that order. *)
Example scenario_a_top2 :
  select_top_posts (sort_posts_by_metric posts_scenario_a "view_count") 2
  = [reel_row "A3" "2,000"; reel_row "A1" "1,000"].
Proof. reflexivity. Qed.

(** C8: when the coercion of some record raises, and whenever the body
    of the [try] raises at all, the ranker returns its input unchanged. *)
Theorem sort_posts_by_metric_degrades (posts : list dict) (sort_by : string) :
  Exists (fun p => is_err (get_numeric_value p sort_by) = true) posts
  \/ is_err (sort_try_body posts sort_by) = true ->
  sort_posts_by_metric posts sort_by = posts.
Proof.
  intros Hraise.
  assert (Herr : is_err (sort_try_body posts sort_by) = true).
  { destruct Hraise as [Hex|Herr]; [now apply sort_try_body_raises | exact Herr]. }
  unfold sort_posts_by_metric.
  destruct (sort_try_body posts sort_by); [discriminate | reflexivity].
Qed.

Lemma sort_posts_by_metric_degrades_witness :
  sort_posts_by_metric posts_nan "view_count" = posts_nan.
Proof.
  apply (sort_posts_by_metric_degrades posts_nan "view_count").
  left. do 2 apply Exists_cons_tl. apply Exists_cons_hd. reflexivity.
Defined.

(** ** Filters and selector *)

(** C4: the pinned-post filter returns a list of at most 3 records
    unchanged, otherwise exactly the records after the first 3; it never
    empties a non-empty list. *)
Theorem filter_non_pinned_posts_spec (posts : list dict) :
  ((length posts <= 3)%nat -> filter_non_pinned_posts posts = posts)
  /\ ((3 < length posts)%nat ->
        filter_non_pinned_posts posts = drop 3 posts
        /\ exists a b c, posts = a :: b :: c :: filter_non_pinned_posts posts)
  /\ (posts <> [] -> filter_non_pinned_posts posts <> []).
Proof.
  unfold filter_non_pinned_posts.
  destruct posts as [|a [|b [|c [|d rest]]]]; simpl;
    (split; [intros; (reflexivity || lia)|]);
    (split; [intros; try lia | intros; congruence]).
  split; [reflexivity | now exists a, b, c].
Qed.

Lemma filter_non_pinned_posts_spec_witness :
  filter_non_pinned_posts (firstn 3 posts_scenario_a) = firstn 3 posts_scenario_a
  /\ filter_non_pinned_posts posts_scenario_a = drop 3 posts_scenario_a
  /\ filter_non_pinned_posts posts_scenario_a <> [].
Proof.
  split; [|split].
  - apply (filter_non_pinned_posts_spec (firstn 3 posts_scenario_a)). simpl. lia.
  - apply (filter_non_pinned_posts_spec posts_scenario_a). simpl. lia.
  - apply (filter_non_pinned_posts_spec posts_scenario_a). discriminate.
Defined.

(** C7: for a requested count N >= 0 the selector returns exactly the
    first min(N, length) records, in order. *)
Theorem select_top_posts_spec (posts : list dict) (count : Z) :
  0 <= count ->
  select_top_posts posts count = take (Nat.min (Z.to_nat count) (length posts)) posts
  /\ length (select_top_posts posts count) = Nat.min (Z.to_nat count) (length posts)
  /\ select_top_posts posts count `prefix_of` posts.
Proof.
  intros Hcount. unfold select_top_posts, slice_to.
  destruct (0 <=? count) eqn:E; [|apply Z.leb_gt in E; lia].
  split; [|split].
  - destruct (Nat.min_spec (Z.to_nat count) (length posts)) as [[Hlt ->]|[Hge ->]].
    + reflexivity.
    + rewrite firstn_all. now apply take_ge.
  - now rewrite length_take.
  - apply prefix_take.
Qed.

Lemma select_top_posts_spec_witness :
  select_top_posts posts_scenario_a 2 = take 2 posts_scenario_a
  /\ length (select_top_posts posts_scenario_a 9) = 5%nat.
Proof.
  split.
  - apply (select_top_posts_spec posts_scenario_a 2). lia.
  - apply (select_top_posts_spec posts_scenario_a 9). lia.
Defined.

Lemma filter_video_posts_sublist (posts : list dict) :
  forall out, filter_video_posts posts = Ok out -> out `sublist_of` posts.
Proof.
  induction posts as [|post rest IH]; simpl; intros out.
  - intros [= <-]. constructor.
  - destruct (is_video_post post) as [keep|]; [|discriminate]. simpl.
    destruct (filter_video_posts rest) as [video_posts|]; [|discriminate]. simpl.
    intros [= <-]. specialize (IH _ eq_refl).
    destruct keep; [now apply sublist_skip | now apply sublist_cons].
Qed.

Lemma is_video_post_total (post : dict) :
  filterable post -> exists keep, is_video_post post = Ok keep.
Proof.
  intros [[s Hs] Hv]. unfold is_video_post. cbv zeta. rewrite Hs.
  match goal with
  | |- context [gt_zero ?v] => assert (Hgt : exists positive, gt_zero v = Ok positive)
  end.
  { unfold dict_get_default.
    destruct (dict_get post "view_count") as [[| | | |]|]; simpl; eauto; congruence. }
  destruct Hgt as [positive ->]. simpl.
  destruct (PyStr.contains "/reel/" s) eqn:Hreel; simpl.
  - destruct positive; eauto.
  - destruct (PyStr.contains "/p/" s); simpl; [|eauto].
    destruct positive; eauto.
Qed.

Lemma filter_video_posts_total (posts : list dict) :
  Forall filterable posts -> exists out, filter_video_posts posts = Ok out.
Proof.
  induction 1 as [|post rest Hp _ [out IH]]; simpl; [eauto|].
  destruct (is_video_post_total post Hp) as [keep ->]. rewrite IH. simpl. eauto.
Qed.

(** C9: both filters only drop whole records: the output is a
    subsequence of the input, record for record. *)
Theorem filters_non_destructive (posts : list dict) :
  (forall out, filter_video_posts posts = Ok out -> out `sublist_of` posts)
  /\ filter_non_pinned_posts posts `sublist_of` posts.
Proof.
  split; [apply filter_video_posts_sublist|].
  unfold filter_non_pinned_posts.
  destruct (length posts <=? 3)%nat; [reflexivity | apply sublist_drop].
Qed.

Lemma filters_non_destructive_witness :
  [reel_row "A1" "1,000"] `sublist_of` [reel_row "A1" "1,000"; [("url", VStr "x")]].
Proof.
  apply (filters_non_destructive [reel_row "A1" "1,000"; [("url", VStr "x")]]).
  reflexivity.
Defined.

(** ** Column Normalizer *)

Lemma mapping_get_dichotomy (m : list (string * string)) (k : string) :
  (forall d, mapping_get m k d = d)
  \/ (exists v, In v (map snd m) /\ forall d, mapping_get m k d = v).
Proof.
  induction m as [|[k' v] m IH]; simpl; [now left|].
  destruct (String.eqb k' k).
  - right. exists v. auto.
  - destruct IH as [IH|[v' [Hin Hv']]]; [now left|].
    right. exists v'. auto.
Qed.

Lemma canonical_fixed (v : string) :
  In v (map snd column_mappings) -> normalized_key v = v.
Proof.
  simpl. intros Hin.
  repeat (destruct Hin as [<-|Hin]; [reflexivity|]). destruct Hin.
Qed.

Lemma normalized_key_fixed (k : string) :
  normalized_key (normalized_key k) = normalized_key k.
Proof.
  unfold normalized_key at 2 3.
  destruct (mapping_get_dichotomy column_mappings (PyStr.lower k)) as [Hmiss|[v [Hin Hv]]].
  - rewrite Hmiss. unfold normalized_key. rewrite lower_idem. apply Hmiss.
  - rewrite Hv. now apply canonical_fixed.
Qed.

Lemma dict_set_fresh (k : string) (v : value) (d : dict) :
  k ∉ dict_keys d -> dict_set k v d = (d ++ [(k, v)])%list.
Proof.
  induction d as [|[k' v'] d IH]; simpl; [reflexivity|].
  intros Hk. apply not_elem_of_cons in Hk as [Hne Hk].
  destruct (String.eqb k' k) eqn:E; [apply String.eqb_eq in E; congruence|].
  now rewrite IH.
Qed.

Lemma dict_set_keys (k : string) (v : value) (d : dict) :
  dict_keys (dict_set k v d)
  = if bool_decide (k ∈ dict_keys d) then dict_keys d else (dict_keys d ++ [k])%list.
Proof.
  induction d as [|[k' v'] d IH]; simpl; [reflexivity|].
  destruct (String.eqb k' k) eqn:E.
  - apply String.eqb_eq in E as ->. simpl.
    rewrite bool_decide_eq_true_2; [reflexivity | constructor].
  - apply String.eqb_neq in E. simpl. rewrite IH.
    destruct (bool_decide (k ∈ dict_keys d)) eqn:Hd.
    + apply bool_decide_eq_true_1 in Hd.
      rewrite bool_decide_eq_true_2; [reflexivity | now constructor].
    + apply bool_decide_eq_false_1 in Hd.
      rewrite bool_decide_eq_false_2; [reflexivity|].
      intros Hin. apply elem_of_cons in Hin as [?|?]; congruence.
Qed.

Lemma dict_set_normal (k : string) (v : value) (d : dict) :
  normalized_key k = k -> normal d -> normal (dict_set k v d).
Proof.
  intros Hk [Hnd Hfix]. unfold normal. rewrite dict_set_keys.
  destruct (bool_decide (k ∈ dict_keys d)) eqn:Hd; [now split|].
  apply bool_decide_eq_false_1 in Hd. split.
  - apply NoDup_app. split; [exact Hnd|]. split; [|apply NoDup_singleton].
    intros x Hx Hx'. apply list_elem_of_singleton in Hx'. congruence.
  - apply Forall_app. split; [exact Hfix|]. now constructor.
Qed.

Lemma fold_normalize_normal (post acc : dict) :
  normal acc -> normal (fold_left normalize_step post acc).
Proof.
  revert acc. induction post as [|[k v] post IH]; intros acc Hacc; simpl; [exact Hacc|].
  apply IH. apply dict_set_normal; [apply normalized_key_fixed | exact Hacc].
Qed.

Lemma normalize_post_normal (post : dict) : normal (normalize_post post).
Proof.
  apply fold_normalize_normal. split; simpl; constructor.
Qed.

(** Normalizing a normal record rebuilds it, key by key. *)
Lemma fold_normalize_rebuild (d acc : dict) :
  NoDup (dict_keys (acc ++ d)%list) ->
  Forall (fun k => normalized_key k = k) (dict_keys d) ->
  fold_left normalize_step d acc = (acc ++ d)%list.
Proof.
  revert acc. induction d as [|[k v] d IH]; intros acc Hnd Hfix; simpl.
  - now rewrite app_nil_r.
  - unfold dict_keys in Hfix. simpl in Hfix.
    apply Forall_cons in Hfix as [Hk Hfix].
    unfold normalize_step at 2. simpl. rewrite Hk.
    assert (Hfresh : k ∉ dict_keys acc).
    { unfold dict_keys in *. rewrite map_app in Hnd. simpl in Hnd.
      apply NoDup_app in Hnd as [_ [Hdisj _]].
      intros Hin. apply (Hdisj k Hin). constructor. }
    rewrite (dict_set_fresh _ _ _ Hfresh).
    rewrite IH; [now rewrite <- app_assoc | | exact Hfix].
    now rewrite <- app_assoc.
Qed.

Lemma normalize_post_idempotent (post : dict) :
  normalize_post (normalize_post post) = normalize_post post.
Proof.
  destruct (normalize_post_normal post) as [Hnd Hfix].
  unfold normalize_post at 1.
  now rewrite fold_normalize_rebuild.
Qed.

(** C5: normalizing an already normalized list of records gives the
    same list. *)
Theorem normalize_column_names_idempotent (posts : list dict) :
  normalize_column_names (normalize_column_names posts) = normalize_column_names posts.
Proof.
  destruct posts as [|post rest]; [reflexivity|].
  unfold normalize_column_names. cbn [map].
  f_equal; [apply normalize_post_idempotent|].
  rewrite map_map. apply map_ext. intros p. apply normalize_post_idempotent.
Qed.

(** A synonym and its canonical column in one row: the last write wins
    and the key keeps the place of its first occurrence. *)
Example normalize_raw_row :
  normalize_post raw_row
  = [ ("profile_name", VStr "alice");
      ("url", VStr "https://www.instagram.com/alice/reel/A1/");
      ("view_count", VInt 7); ("caption", VNone) ].
Proof. reflexivity. Qed.

(** ** Tabular Reader and pipeline *)

Section PipelineFacts.
Context {W : Type} `{Externals W}.

Lemma read_csv_data_both_fail (self : CSVProfileTranscriber) (csv_file : string)
    (w w1 w2 : W) (e1 e2 : exn) :
  pd_read_csv csv_file w = (Err e1, w1) ->
  csv_DictReader csv_file w1 = (Err e2, w2) ->
  read_csv_data self csv_file w = (Ok [], w2).
Proof.
  intros H1 H2. unfold read_csv_data, try_except. now rewrite H1, H2.
Qed.

(** The reader never raises. *)
Lemma read_csv_data_total (self : CSVProfileTranscriber) (csv_file : string) (w : W) :
  exists posts w', read_csv_data self csv_file w = (Ok posts, w').
Proof.
  unfold read_csv_data, try_except.
  destruct (pd_read_csv csv_file w) as [[posts|e1] w1]; [eauto|].
  destruct (csv_DictReader csv_file w1) as [[posts|e2] w2]; eauto.
Qed.

(** *** Media loop: nothing transcribed, nothing to report *)




(** C6: when both the structured parse and the line-oriented parse
    fail, the reader returns the empty list and the pipeline returns
    [None], neither raising. *)
Theorem read_failure_nothing_to_process (self : CSVProfileTranscriber)
    (csv_file : string) (top_count : Z) (sort_by : string) (filter_pinned : bool)
    (profile_name : value) (quick_transcribe : bool) (w w1 w2 : W) (e1 e2 : exn) :
  pd_read_csv csv_file w = (Err e1, w1) ->
  csv_DictReader csv_file w1 = (Err e2, w2) ->
  read_csv_data self csv_file w = (Ok [], w2)
  /\ process_csv_file self csv_file top_count sort_by filter_pinned
                      profile_name quick_transcribe w = (Ok None, w2).
Proof.
  intros H1 H2.
  pose proof (read_csv_data_both_fail self csv_file w w1 w2 e1 e2 H1 H2) as Hread.
  split; [exact Hread|].
  unfold process_csv_file, bind. now rewrite Hread.
Qed.
End PipelineFacts.

Lemma read_failure_nothing_to_process_witness :
  read_csv_data extension_dir "missing.csv" Toy.empty = (Ok [], Toy.empty)
  /\ process_csv_file extension_dir "missing.csv" 5 "view_count" true VNone false Toy.empty
     = (Ok None, Toy.empty).
Proof.
  apply (read_failure_nothing_to_process extension_dir "missing.csv" 5 "view_count"
           true VNone false Toy.empty Toy.empty Toy.empty OSError OSError);
    reflexivity.
Defined.

(** ** Report Assembler: the name written to *)

Section FilenameFacts.
Context {W : Type} `{Externals W}.

(** Batch mode: a taken name gets a time stamp before its extension. *)
Lemma final_filename_batch_collision (self : CSVProfileTranscriber)
    (transcriptions : list transcription) (profile_name : value)
    (w w1 w2 : W) (timestamp : string) :
  path_exists (path_join (output_dir self)
                 (batch_filename profile_name (length transcriptions) "")) w
    = (Ok true, w1) ->
  now_stamp w1 = (Ok timestamp, w2) ->
  final_filename transcriptions profile_name false self w
  = (Ok (batch_filename profile_name (length transcriptions) ("_" +:+ timestamp)), w2).
Proof.
  intros Hexists Hnow. unfold final_filename, computed_filename, bind, ret.
  now rewrite Hexists, Hnow.
Qed.

(** A free name is kept as computed. *)
Lemma final_filename_batch_free (self : CSVProfileTranscriber)
    (transcriptions : list transcription) (profile_name : value) (w w1 : W) :
  path_exists (path_join (output_dir self)
                 (batch_filename profile_name (length transcriptions) "")) w
    = (Ok false, w1) ->
  final_filename transcriptions profile_name false self w
  = (Ok (batch_filename profile_name (length transcriptions) ""), w1).
Proof.
  intros Hexists. unfold final_filename, computed_filename, bind, ret.
  now rewrite Hexists.
Qed.

(** Quick mode: a taken name is replaced by the stamped batch name. *)
Lemma final_filename_quick_collision (self : CSVProfileTranscriber)
    (trans : transcription) (profile_name : value)
    (w w1 w2 w3 : W) (timestamp timestamp' : string) :
  now_stamp w = (Ok timestamp, w1) ->
  path_exists (path_join (output_dir self)
                 (quick_filename profile_name (extract_reel_id (url trans)) timestamp)) w1
    = (Ok true, w2) ->
  now_stamp w2 = (Ok timestamp', w3) ->
  final_filename [trans] profile_name true self w
  = (Ok (batch_filename profile_name 1 ("_" +:+ timestamp')), w3).
Proof.
  intros Hnow Hexists Hnow'. unfold final_filename, computed_filename, bind, ret.
  now rewrite Hnow, Hexists, Hnow'.
Qed.
End FilenameFacts.

(** The scenario of the spec: a batch report for alice with 3 results
    while [alicetop3transcripts.txt] exists is written under a stamped
    name, and the earlier file keeps its content. *)
Example alice_batch_collision :
  let run := create_combined_document extension_dir three_results (VStr "alice") false
               (world_with_file "alicetop3transcripts.txt") in
  fst run = Ok "extension_transcriptions/alicetop3transcripts_T1.txt"
  /\ Toy.files (snd run) !! "extension_transcriptions/alicetop3transcripts.txt"
     = Some (0%nat, "earlier report").
Proof. vm_compute. split; reflexivity. Qed.

(** C3 at the failing input: a quick report for alice, reel A1, at time
    T1, while [quick_alice_A1_T1.txt] exists.  The name first computed is
    the quick one; the name written to is the batch name with a stamp,
    which does not extend the computed name. *)
Theorem quick_collision_takes_batch_name :
  let w := world_with_file "quick_alice_A1_T1.txt" in
  fst (computed_filename [result_of 1 "A1"] (VStr "alice") true w)
    = Ok "quick_alice_A1_T1.txt"
  /\ fst (create_combined_document extension_dir [result_of 1 "A1"] (VStr "alice") true w)
     = Ok "extension_transcriptions/alicetop1transcripts_T1.txt"
  /\ PyStr.startswith "alicetop1transcripts_T1.txt" "quick_alice_A1_T1" = false.
Proof. vm_compute. repeat split; reflexivity. Qed.

(** ** Alternate entry point *)

Section HandlerFacts.
Context {W : Type} `{Externals W}.

(** X1: the alternate entry point never raises: whatever the
    request and whatever fails underneath, a response comes back. *)
Lemma handler_total (event : event) (w : W) :
  exists resp w', handler event w = (Ok resp, w').
Proof.
  unfold handler, try_except.
  destruct (handler_body event w) as [[resp|e] w']; eauto.
Qed.

(** C10: with posts in the request and [process_csv_file] returning
    [None], the response has success True, output_file "None",
    output_text None and the fallback filename; success is False
    only for a request without posts or when the body raises. *)
Theorem handler_without_transcription (event : event) (w : W) :
  (forall (csv_path : string) (transcriber : CSVProfileTranscriber) (w1 w2 : W),
      request_posts (request_of event) <> [] ->
      handler_setup (request_of event) w = (Ok (csv_path, transcriber), w1) ->
      process_csv_file transcriber csv_path
        (match req_top_count (request_of event) with Some n => n | None => 5 end)
        (match req_sort_by (request_of event) with Some s => s | None => "view_count" end)
        false
        (request_profile_name (request_of event))
        (match req_quick_transcribe (request_of event) with Some b => b | None => false end)
        w1 = (Ok None, w2) ->
      fst (handler event w)
      = Ok (Success "None" None
              (py_str (request_profile_name (request_of event)) +:+ "_transcription.txt")
              (request_profile_name (request_of event))
              "Transcription completed successfully"))
  /\ (forall resp : response,
        fst (handler event w) = Ok resp -> success resp = false ->
        request_posts (request_of event) = []
        \/ exists e, fst (handler_body event w) = Err e).
Proof.
  split.
  - intros csv_path transcriber w1 w2 Hposts Hsetup Hrun.
    unfold handler, try_except, handler_body. cbv zeta.
    destruct (request_posts (request_of event)) as [|post rest] eqn:Eposts;
      [congruence|].
    unfold bind at 1. rewrite Hsetup. cbn [fst snd].
    unfold bind at 1. rewrite Hrun.
    unfold bind at 1, ret at 1. unfold bind at 1, ret at 1.
    unfold bind at 1, try_except.
    destruct (unlink csv_path w2) as [[[]|e] w3]; reflexivity.
  - intros resp Hresp Hfalse. unfold handler, try_except in Hresp.
    destruct (handler_body event w) as [[r|e] w'] eqn:Hbody; [|right; eauto].
    simpl in Hresp. injection Hresp as ->. left.
    unfold handler_body in Hbody. cbv zeta in Hbody.
    destruct (request_posts (request_of event)) as [|post rest]; [reflexivity|].
    exfalso. revert Hbody. unfold bind.
    repeat match goal with
           | |- context [match ?m ?w0 with _ => _ end] =>
               lazymatch m with
               | try_except _ _ => unfold try_except
               | _ => destruct (m w0) as [[?|?] ?]
               end
           | |- context [match ?x with Some _ => _ | None => _ end] => destruct x
           | |- context [if ?b then _ else _] => destruct b
           end;
      try discriminate;
      unfold ret; intros [= <- _]; discriminate.
Qed.
End HandlerFacts.

Lemma handler_without_transcription_witness :
  fst (handler {| input := Some one_reel_request |} Toy.empty)
  = Ok (Success "None" None "alice_transcription.txt" (VStr "alice")
          "Transcription completed successfully").
Proof.
  refine (proj1 (handler_without_transcription
                   {| input := Some one_reel_request |} Toy.empty)
                "/tmp/tmp0.csv" extension_dir
                (snd (handler_setup one_reel_request Toy.empty))
                (snd (handler_setup one_reel_request Toy.empty)) _ _ _).
  - discriminate.
  - reflexivity.
  - vm_compute. reflexivity.
Defined.


(** * Further properties of the code *)

(** ** Strings, continued *)

Lemma absent_iff_all (c : ascii) (s : string) :
  PyStr.contains (String c EmptyString) s = false
  <-> PyStr.all (fun x => negb (Ascii.eqb c x)) s = true.
Proof.
  induction s as [|x s IH]; [now split|].
  rewrite contains_char_cons. cbn [PyStr.all].
  rewrite orb_false_iff, andb_true_iff, negb_true_iff, IH. reflexivity.
Qed.

Lemma all_impl (f g : ascii -> bool) (s : string) :
  (forall c, f c = true -> g c = true) -> PyStr.all f s = true -> PyStr.all g s = true.
Proof.
  intros Hfg. induction s as [|x s IH]; [trivial|]. cbn [PyStr.all].
  rewrite !andb_true_iff. intros [Hx Hs]. auto.
Qed.

Lemma all_take (f : ascii -> bool) (n : nat) (s : string) :
  PyStr.all f s = true -> PyStr.all f (PyStr.take n s) = true.
Proof.
  revert s. induction n as [|n IH]; intros [|x s]; try reflexivity.
  cbn [PyStr.all PyStr.take]. rewrite !andb_true_iff. intros [Hx Hs]. auto.
Qed.

Lemma all_filter (f : ascii -> bool) (s : string) :
  PyStr.all f (PyStr.filter f s) = true.
Proof.
  induction s as [|x s IH]; [reflexivity|]. cbn [PyStr.filter].
  destruct (f x) eqn:Hx; [|exact IH]. cbn [PyStr.all]. now rewrite Hx, IH.
Qed.

Lemma length_take_le (n : nat) (s : string) : (String.length (PyStr.take n s) <= n)%nat.
Proof.
  revert s. induction n as [|n IH]; intros [|x s]; simpl; try lia.
  specialize (IH s). lia.
Qed.

Lemma string_rev_of_cons (x : ascii) (cur : list ascii) :
  PyStr.string_rev_of (x :: cur) = PyStr.string_rev_of cur +:+ String x EmptyString.
Proof.
  unfold PyStr.string_rev_of. simpl.
  induction (rev cur) as [|y l IH]; simpl; [reflexivity | now rewrite IH].
Qed.

Lemma all_append (f : ascii -> bool) (s t : string) :
  PyStr.all f (s +:+ t) = PyStr.all f s && PyStr.all f t.
Proof.
  induction s as [|x s IH]; simpl; [reflexivity|]. now rewrite IH, andb_assoc.
Qed.

Lemma all_string_rev_of (f : ascii -> bool) (cur : list ascii) :
  PyStr.all f (PyStr.string_rev_of cur) = forallb f cur.
Proof.
  induction cur as [|x cur IH]; [reflexivity|].
  rewrite string_rev_of_cons, all_append, IH. simpl.
  rewrite andb_true_r. apply andb_comm.
Qed.

Lemma prefix_char (c x : ascii) (s : string) :
  String.prefix (String c EmptyString) (String x s) = Ascii.eqb c x.
Proof.
  simpl. destruct (ascii_dec c x) as [->|Hne].
  - rewrite Ascii.eqb_refl. now destruct s.
  - apply Ascii.eqb_neq in Hne. now rewrite Hne.
Qed.

(** The first piece of a split on one character holds no separator,
    and only characters of the string that was split. *)
Lemma split_first_piece (f : ascii -> bool) (c : ascii) (s : string) :
  forall cur,
    PyStr.all (fun x => Ascii.eqb c x || f x) s = true ->
    forallb f cur = true ->
    PyStr.all f (hd EmptyString (PyStr.split_aux (String c EmptyString) s 0 cur)) = true.
Proof.
  induction s as [|x s IH]; intros cur Hs Hcur.
  - simpl. now rewrite all_string_rev_of.
  - cbn [PyStr.split_aux]. rewrite prefix_char.
    cbn [PyStr.all] in Hs. apply andb_true_iff in Hs as [Hx Hs].
    destruct (Ascii.eqb c x); simpl in *.
    + now rewrite all_string_rev_of.
    + apply IH; [exact Hs|]. simpl. now rewrite Hx, Hcur.
Qed.

Lemma split_first_no_separator (c : ascii) (s : string) :
  PyStr.contains (String c EmptyString)
    (hd EmptyString (PyStr.split (String c EmptyString) s)) = false.
Proof.
  apply absent_iff_all. apply split_first_piece; [|reflexivity].
  induction s as [|x s IH]; [reflexivity|]. cbn [PyStr.all].
  rewrite IH. now destruct (Ascii.eqb c x).
Qed.

Lemma split_first_keeps_absent (c d : ascii) (s : string) :
  PyStr.contains (String d EmptyString) s = false ->
  PyStr.contains (String d EmptyString)
    (hd EmptyString (PyStr.split (String c EmptyString) s)) = false.
Proof.
  intros Hd. apply absent_iff_all. apply split_first_piece; [|reflexivity].
  apply absent_iff_all in Hd. eapply all_impl; [|exact Hd].
  intros x Hx. simpl in Hx. rewrite Hx. apply orb_true_r.
Qed.

Lemma absent_take (c : ascii) (n : nat) (s : string) :
  PyStr.contains (String c EmptyString) s = false ->
  PyStr.contains (String c EmptyString) (PyStr.take n s) = false.
Proof. rewrite !absent_iff_all. apply all_take. Qed.

Lemma replace_del_absent (c : ascii) (s : string) :
  PyStr.contains (String c EmptyString) s = false -> PyStr.replace_del c s = s.
Proof.
  induction s as [|x s IH]; [trivial|].
  rewrite contains_char_cons. intros [Hx Hs]%orb_false_elim.
  cbn [PyStr.replace_del]. now rewrite Hx, IH.
Qed.

(** ** Report Assembler: the reel id *)

(** X2: the reel id used in a quick report's name has at most 10
    characters and holds neither a slash nor a question mark, whatever
    the url. *)
Theorem extract_reel_id_safe (url : value) :
  (String.length (extract_reel_id url) <= 10)%nat
  /\ PyStr.contains "/" (extract_reel_id url) = false
  /\ PyStr.contains "?" (extract_reel_id url) = false.
Proof.
  unfold extract_reel_id.
  destruct url as [| | | |s]; try (repeat split; simpl; (lia || reflexivity)).
  cbn [str_in rbind].
  destruct (PyStr.contains "/reel/" s); [|repeat split; simpl; (lia || reflexivity)].
  destruct (PyStr.split "/reel/" s) as [|part0 [|part1 rest]];
    try (repeat split; simpl; (lia || reflexivity)).
  cbn [except_default]. split; [apply length_take_le|].
  split; apply absent_take.
  - apply split_first_keeps_absent, split_first_no_separator.
  - apply split_first_no_separator.
Qed.

(** ** Post Filter, continued *)

Lemma is_video_post_kept (post : dict) :
  is_video_post post = Ok true -> has_video_url post.
Proof.
  unfold is_video_post, dict_get_default, has_video_url. cbv zeta.
  destruct (dict_get post "url") as [[| | | |s]|]; try discriminate.
  cbn [str_in rbind]. intros Hkeep. exists s. split; [reflexivity|].
  destruct (PyStr.contains "/reel/" s); [now left|].
  destruct (PyStr.contains "/p/" s); [now right | discriminate].
Qed.

(** X3: every record the video filter returns has a string [url] with
    a reel or post marker; in particular none has an empty url. *)
Theorem filter_video_posts_marked (posts out : list dict) :
  filter_video_posts posts = Ok out -> Forall has_video_url out.
Proof.
  revert out. induction posts as [|post rest IH]; simpl; intros out.
  - intros [= <-]. constructor.
  - destruct (is_video_post post) as [keep|] eqn:Hkeep; [|discriminate]. simpl.
    destruct (filter_video_posts rest) as [video_posts|]; [|discriminate]. simpl.
    intros [= <-]. specialize (IH _ eq_refl).
    destruct keep; [|exact IH]. constructor; [|exact IH].
    now apply is_video_post_kept.
Qed.

Lemma filter_video_posts_marked_witness :
  Forall has_video_url posts_scenario_a.
Proof.
  apply (filter_video_posts_marked posts_scenario_a). reflexivity.
Defined.

Lemma gt_zero_coerced_raises (v : value) :
  is_err (gt_zero match v with
                  | VStr s => VInt (except_default (PyStr.py_int (PyStr.replace_del "," s)) 0)
                  | _ => v
                  end) = true <-> v = VNone.
Proof. destruct v; simpl; split; congruence. Qed.

Lemma is_video_post_raises (post : dict) :
  is_err (is_video_post post) = true <-> raises_in_filter post.
Proof.
  unfold is_video_post, raises_in_filter, has_video_url, dict_get_default. cbv zeta.
  destruct (dict_get post "url") as [url|] eqn:Hurl.
  - destruct url as [| | | |s];
      try (simpl; split; [intros _; left; eexists; split; [reflexivity | congruence] | reflexivity]).
    cbn [str_in rbind].
    assert (Hnotstr : ~ exists v, Some (VStr s) = Some v /\ forall s0, v <> VStr s0).
    { intros [v [[= <-] Hv]]. now apply (Hv s). }
    pose proof (gt_zero_coerced_raises
                  match dict_get post "view_count" with Some v => v | None => VInt 0 end)
      as Hgt.
    destruct (PyStr.contains "/reel/" s) eqn:Hreel; cbn [rbind].
    + destruct (gt_zero _) as [[|]|e] eqn:Eg; simpl in *.
      * split; [discriminate|]. intros [Hbad|[_ Hnone]]; [tauto|].
        rewrite Hnone in Hgt. now apply Hgt.
      * split; [discriminate|]. intros [Hbad|[_ Hnone]]; [tauto|].
        rewrite Hnone in Hgt. now apply Hgt.
      * split; [|reflexivity]. intros _. right. split; [exists s; auto|].
        destruct (dict_get post "view_count") as [v|]; [|destruct Hgt as [Hgt _]; discriminate (Hgt eq_refl)].
        f_equal. now apply Hgt.
    + destruct (PyStr.contains "/p/" s) eqn:Hp; cbn [rbind].
      * destruct (gt_zero _) as [[|]|e] eqn:Eg; simpl in *.
        -- split; [discriminate|]. intros [Hbad|[_ Hnone]]; [tauto|].
           rewrite Hnone in Hgt. now apply Hgt.
        -- split; [discriminate|]. intros [Hbad|[_ Hnone]]; [tauto|].
           rewrite Hnone in Hgt. now apply Hgt.
        -- split; [|reflexivity]. intros _. right. split; [exists s; auto|].
           destruct (dict_get post "view_count") as [v|]; [|destruct Hgt as [Hgt _]; discriminate (Hgt eq_refl)].
           f_equal. now apply Hgt.
      * simpl. split; [discriminate|].
        intros [Hbad|[[s' [[= <-] [Hm|Hm]]] _]]; [tauto | congruence | congruence].
  - simpl. split; [discriminate|].
    intros [[v [Hv _]]|[[s [Hs _]] _]]; discriminate.
Qed.

Lemma is_video_post_error_kind (post : dict) (e : exn) :
  is_video_post post = Err e -> e = TypeError.
Proof.
  unfold is_video_post, dict_get_default. cbv zeta.
  destruct (dict_get post "url") as [[| | | |s]|]; simpl; try congruence.
  - destruct (PyStr.contains "/reel/" s); simpl.
    + destruct (dict_get post "view_count") as [[| | | |]|]; simpl; try congruence;
        match goal with |- context [if ?b then _ else _] => destruct b end; congruence.
    + destruct (PyStr.contains "/p/" s); simpl; [|congruence].
      destruct (dict_get post "view_count") as [[| | | |]|]; simpl; try congruence;
        match goal with |- context [if ?b then _ else _] => destruct b end; congruence.
Qed.

Lemma filter_video_posts_error_kind (posts : list dict) (e : exn) :
  filter_video_posts posts = Err e -> e = TypeError.
Proof.
  induction posts as [|post rest IH]; simpl; [discriminate|].
  pose proof (is_video_post_error_kind post) as Hkind.
  destruct (is_video_post post) as [keep|e0]; simpl.
  - destruct (filter_video_posts rest) as [video_posts|e1]; simpl; [discriminate|].
    intros [= <-]. now apply IH.
  - intros [= <-]. now apply Hkind.
Qed.

(** X4: the video filter is all or nothing: it raises, and always a
    [TypeError], exactly when some record has a [url] cell that is not a
    string, or a marked url next to a [None] view count; no record is
    returned then. *)
Theorem filter_video_posts_raises (posts : list dict) :
  (Exists raises_in_filter posts <-> filter_video_posts posts = Err TypeError)
  /\ (forall e, filter_video_posts posts = Err e -> e = TypeError).
Proof.
  induction posts as [|post rest [IH IHe]]; simpl.
  - split; [|discriminate]. split; [intros HE; inversion HE | discriminate].
  - pose proof (is_video_post_raises post) as Hpost.
    pose proof (is_video_post_error_kind post) as Hkind.
    destruct (is_video_post post) as [keep|e]; simpl in *.
    + destruct (filter_video_posts rest) as [video_posts|e']; simpl in *.
      * split; [|discriminate]. split; [|discriminate].
        intros HE. apply Exists_cons in HE as [Hbad|HE].
        -- apply Hpost in Hbad. discriminate.
        -- now apply IH in HE.
      * split; [|intros e [= <-]; now apply IHe].
        rewrite (IHe e' eq_refl). split; [reflexivity|].
        intros _. apply Exists_cons_tl. apply IH. f_equal. now apply IHe.
    + rewrite (Hkind e eq_refl). split; [|congruence]. split; [reflexivity|].
      intros _. apply Exists_cons_hd. now apply Hpost.
Qed.

(** X5: on a post url that is not a reel, with a view count that is
    an int, a bool, missing, or a string without blanks, the filter keeps
    the record exactly when the ranker's coerced view count is positive. *)
Theorem post_kept_iff_positive_metric (post : dict) (s : string) :
  dict_get post "url" = Some (VStr s) ->
  PyStr.contains "/reel/" s = false ->
  PyStr.contains "/p/" s = true ->
  plain_count (dict_get post "view_count") ->
  is_video_post post = Ok (0 <? metric "view_count" post).
Proof.
  intros Hurl Hreel Hp Hplain.
  unfold is_video_post, metric, get_numeric_value, dict_get_default. cbv zeta.
  rewrite Hurl. cbn [str_in rbind]. rewrite Hreel, Hp. cbn [rbind].
  destruct (dict_get post "view_count") as [[|b|z|f|t]|]; simpl in *; try tauto.
  - now destruct b.
  - now destruct (0 <? z).
  - rewrite (replace_del_absent " ").
    + now destruct (0 <? _).
    + now apply absent_replace_del.
Qed.

Lemma post_kept_iff_positive_metric_witness :
  is_video_post [("url", VStr "https://www.instagram.com/p/B1/"); ("view_count", VStr "1,200")]
  = Ok (0 <? metric "view_count"
               [("url", VStr "https://www.instagram.com/p/B1/"); ("view_count", VStr "1,200")]).
Proof.
  apply (post_kept_iff_positive_metric _ "https://www.instagram.com/p/B1/"); reflexivity.
Defined.

(** With a blank inside the number the two coercions part: the filter
    reads 0, the ranker 1000. *)
Example blank_in_view_count :
  let post := [("url", VStr "https://www.instagram.com/p/B1/"); ("view_count", VStr "1 000")] in
  is_video_post post = Ok false /\ metric "view_count" post = 1000.
Proof. split; reflexivity. Qed.

Lemma filter_video_posts_raises_witness :
  filter_video_posts posts_empty_url = Err TypeError.
Proof.
  apply (filter_video_posts_raises posts_empty_url).
  apply Exists_cons_tl, Exists_cons_hd. left.
  exists (VFloat S754_nan). split; [reflexivity | discriminate].
Defined.

(** ** Column Normalizer, continued *)

Lemma dict_get_set (k k' : string) (v : value) (d : dict) :
  dict_get (dict_set k v d) k' = if String.eqb k k' then Some v else dict_get d k'.
Proof.
  induction d as [|[k0 v0] d IH]; simpl.
  - reflexivity.
  - destruct (String.eqb k0 k) eqn:E0; simpl.
    + apply String.eqb_eq in E0 as ->. now destruct (String.eqb k k').
    + destruct (String.eqb k0 k') eqn:E1; [|exact IH].
      apply String.eqb_eq in E1 as ->. apply String.eqb_neq in E0.
      destruct (String.eqb k k') eqn:E2; [|reflexivity].
      apply String.eqb_eq in E2. congruence.
Qed.

Lemma fold_normalize_lookup (post acc : dict) (k : string) :
  dict_get (fold_left normalize_step post acc) k
  = match last_written k post with
    | Some v => Some v
    | None => dict_get acc k
    end.
Proof.
  revert acc. induction post as [|[k' v] post IH]; intros acc; [reflexivity|].
  cbn [fold_left last_written]. rewrite IH.
  destruct (last_written k post); [reflexivity|].
  unfold normalize_step. simpl. rewrite dict_get_set.
  now destruct (String.eqb (normalized_key k') k).
Qed.

(** X6: a normalized record holds, under each key, the value of the
    last column of the row whose normalized name is that key (a synonym
    and its canonical column: the later one wins), and nothing under a
    key no column normalizes to. *)
Theorem normalize_post_lookup (post : dict) (k : string) :
  dict_get (normalize_post post) k = last_written k post.
Proof.
  unfold normalize_post. rewrite fold_normalize_lookup.
  now destruct (last_written k post).
Qed.

(** X7: after normalization every record has distinct keys, each a
    fixed point of the normalizer: lower case, with no synonym left. *)
Theorem normalize_column_names_normal (posts : list dict) :
  Forall normal (normalize_column_names posts)
  /\ Forall (fun post => Forall (fun k => k = PyStr.lower k
                                       /\ ~ In k ["reel"; "post_url"; "link"; "views"; "likes";
                                                  "comments"; "profile"; "username"; "account"])
                               (dict_keys post))
            (normalize_column_names posts).
Proof.
  assert (Hall : Forall normal (normalize_column_names posts)).
  { destruct posts as [|post rest]; [constructor|].
    unfold normalize_column_names. apply Forall_fmap, Forall_forall.
    intros p _. apply normalize_post_normal. }
  split; [exact Hall|].
  eapply Forall_impl; [exact Hall|]. intros post [_ Hfix].
  eapply Forall_impl; [exact Hfix|]. intros k Hk. split.
  - unfold normalized_key in Hk.
    destruct (mapping_get_dichotomy column_mappings (PyStr.lower k)) as [Hmiss|[v [Hin Hv]]].
    + now rewrite Hmiss in Hk.
    + rewrite Hv in Hk. subst k. simpl in Hin.
      repeat (destruct Hin as [<-|Hin]; [reflexivity|]). destruct Hin.
  - intros Hin. simpl in Hin.
    repeat (destruct Hin as [<-|Hin]; [discriminate Hk|]). destruct Hin.
Qed.


(** ** Ranker, continued *)

Lemma mapM_result_ok_inv {A B} (f : A -> result B) (l : list A) :
  is_err (mapM_result f l) = false -> Forall (fun x => is_err (f x) = false) l.
Proof.
  induction l as [|x l IH]; simpl; [constructor|].
  destruct (f x) as [y|e] eqn:Hx; simpl; [|discriminate].
  destruct (mapM_result f l); simpl; [|discriminate].
  intros _. constructor; [now rewrite Hx | now apply IH].
Qed.

Lemma sort_posts_by_metric_ok (posts : list dict) (sort_by : string) :
  Forall (coerces sort_by) posts ->
  sort_posts_by_metric posts sort_by
  = map snd (sorted_desc (map (decorate sort_by) posts)).
Proof.
  intros Hall. unfold sort_posts_by_metric. now rewrite sort_try_body_ok.
Qed.

Lemma sort_posts_by_metric_cases (posts : list dict) (sort_by : string) :
  Forall (coerces sort_by) posts \/ sort_posts_by_metric posts sort_by = posts.
Proof.
  unfold sort_posts_by_metric, sort_try_body.
  destruct (mapM_result (fun x => get_numeric_value x sort_by) posts) eqn:E.
  - left. apply mapM_result_ok_inv. now rewrite E.
  - now right.
Qed.

Lemma sorted_desc_fixed {A} (l : list (Z * A)) :
  StronglySorted key_ge l -> sorted_desc l = l.
Proof.
  induction 1 as [|x l Hl IH Hx]; [reflexivity|].
  cbn [sorted_desc]. rewrite IH. destruct l as [|y l]; [reflexivity|].
  cbn [insert_desc]. apply Forall_cons in Hx as [Hy _]. unfold key_ge in Hy.
  apply Z.leb_le in Hy. now rewrite Hy.
Qed.

(** X9: the ranker never loses or duplicates a record: its output is
    a permutation of its input, whether the sort succeeds or falls back. *)
Theorem sort_posts_by_metric_permutation (posts : list dict) (sort_by : string) :
  sort_posts_by_metric posts sort_by ≡ₚ posts.
Proof.
  destruct (sort_posts_by_metric_cases posts sort_by) as [Hall| ->]; [|reflexivity].
  rewrite (sort_posts_by_metric_ok _ _ Hall), sorted_desc_perm, map_map. simpl.
  now rewrite map_id.
Qed.

(** X10: ranking is idempotent: ranking a ranked list by the same field
    changes nothing. *)
Theorem sort_posts_by_metric_idempotent (posts : list dict) (sort_by : string) :
  sort_posts_by_metric (sort_posts_by_metric posts sort_by) sort_by
  = sort_posts_by_metric posts sort_by.
Proof.
  destruct (sort_posts_by_metric_cases posts sort_by) as [Hall|Hsame];
    [|now rewrite !Hsame].
  rewrite (sort_posts_by_metric_ok posts _ Hall).
  set (srt := sorted_desc (map (decorate sort_by) posts)).
  assert (Hall' : Forall (coerces sort_by) (map snd srt)).
  { apply Forall_forall. intros p Hp. rewrite Forall_forall in Hall. apply Hall.
    unfold srt in Hp. rewrite sorted_desc_perm, map_map in Hp. simpl in Hp.
    now rewrite map_id in Hp. }
  rewrite (sort_posts_by_metric_ok _ _ Hall').
  unfold srt at 1. rewrite <- sorted_decorated. fold srt.
  now rewrite (sorted_desc_fixed srt (sorted_desc_sorted _)).
Qed.

(** X11: when the coercion succeeds on every record, each record the
    selector takes has a coerced value at least that of each record it
    leaves out. *)
Theorem selected_dominate (posts : list dict) (sort_by : string) (count : Z)
    (a b : dict) :
  Forall (coerces sort_by) posts ->
  0 <= count ->
  a ∈ select_top_posts (sort_posts_by_metric posts sort_by) count ->
  b ∈ drop (Z.to_nat count) (sort_posts_by_metric posts sort_by) ->
  metric sort_by b <= metric sort_by a.
Proof.
  intros Hall Hcount Ha Hb. unfold select_top_posts, slice_to in Ha.
  destruct (0 <=? count) eqn:E; [|apply Z.leb_gt in E; lia].
  rewrite (sort_posts_by_metric_ok _ _ Hall) in Ha, Hb.
  set (srt := sorted_desc (map (decorate sort_by) posts)) in *.
  pose proof (sorted_desc_sorted (map (decorate sort_by) posts)) as Hsorted.
  fold srt in Hsorted.
  assert (Hdec : srt = map (decorate sort_by) (map snd srt)) by apply sorted_decorated.
  rewrite Hdec in Hsorted.
  rewrite <- (take_drop (Z.to_nat count) (map snd srt)), fmap_app in Hsorted.
  change (key_ge (decorate sort_by a) (decorate sort_by b)).
  eapply StronglySorted_app_1_elem_of; [exact Hsorted | |];
    apply list_elem_of_fmap; eauto.
Qed.

Lemma selected_dominate_witness :
  metric "view_count" (reel_row "A2" "50") <= metric "view_count" (reel_row "A1" "1,000").
Proof.
  apply (selected_dominate posts_scenario_a "view_count" 2).
  - repeat constructor.
  - lia.
  - apply list_elem_of_In. vm_compute. tauto.
  - apply list_elem_of_In. vm_compute. tauto.
Defined.

(** ** Media loop and cleanup *)

Section LoopFacts.
Context {W : Type} `{Externals W}.

Lemma bind_ok {A B} (m : M W A) (k : A -> M W B) (w w1 : W) (a : A) :
  m w = (Ok a, w1) -> bind m k w = k a w1.
Proof. intros Hm. unfold bind. now rewrite Hm. Qed.

Lemma bind_err {A B} (m : M W A) (k : A -> M W B) (w w1 : W) (e : exn) :
  m w = (Err e, w1) -> bind m k w = (Err e, w1).
Proof. intros Hm. unfold bind. now rewrite Hm. Qed.

Lemma cleanup_loop_never_raises (self : CSVProfileTranscriber)
    (transcriptions : list transcription) (w : W) :
  exists w',
    for_fold (fun (_ : unit) trans =>
        if negb (String.eqb (file_path trans) "") then
          let individual_file_path := path_join (output_dir self) (file_path trans) in
          try_except
            (present <~ path_exists individual_file_path ;;
             if present then unlink individual_file_path else ret tt)
            (fun e => ret tt)
        else ret tt)
      transcriptions tt w = (Ok tt, w').
Proof.
  revert w. induction transcriptions as [|trans rest IH]; intros w; [now exists w|].
  cbn [for_fold]. unfold bind at 1.
  destruct (negb (String.eqb (file_path trans) "")).
  - cbv zeta. unfold try_except, bind, ret.
    destruct (path_exists _ w) as [[[|]|e] w1]; try apply IH.
    destruct (unlink _ w1) as [[[]|e] w2]; apply IH.
  - unfold ret at 1. apply IH.
Qed.

(** X12: the cleanup after a report never raises, whatever the file
    system does: a failing [exists], [unlink] or transcriber cleanup is
    swallowed and the remaining files are still visited. *)
Theorem cleanup_individual_files_never_raises (self : CSVProfileTranscriber)
    (transcriptions : list transcription) (w : W) :
  exists w', cleanup_individual_files self transcriptions w = (Ok tt, w').
Proof.
  destruct (cleanup_loop_never_raises self transcriptions w) as [w1 Hloop].
  unfold cleanup_individual_files. rewrite (bind_ok _ _ _ _ _ Hloop).
  unfold try_except, ret.
  destruct (transcriber_cleanup w1) as [[[]|e] w2]; eauto.
Qed.

Lemma transcribe_post_result (self : CSVProfileTranscriber) (i : nat) (post : dict) (w : W) :
  exists r w', transcribe_post self i post w = (Ok r, w')
    /\ match r with
       | None => True
       | Some t => post_number t = i /\ csv_data t = post
                   /\ url t = dict_get_default post "url" (VStr "")
                   /\ truthy (url t) = true
       end.
Proof.
  unfold transcribe_post. cbv zeta.
  destruct (truthy (dict_get_default post "url" (VStr ""))) eqn:Hurl; simpl;
    [|eexists None, _; split; [reflexivity | exact I]].
  unfold try_except, bind, ret.
  destruct (process_url _ w) as [[[|]|e] w1]; try (eexists None, _; split; [reflexivity | exact I]).
  destruct (glob_txt _ w1) as [[[|f fs]|e] w2]; try (eexists None, _; split; [reflexivity | exact I]).
  destruct (latest_mtime (f :: fs) w2) as [[latest|e] w3]; try (eexists None, _; split; [reflexivity | exact I]).
  destruct (read_text latest w3) as [[content|e] w4]; try (eexists None, _; split; [reflexivity | exact I]).
  eexists (Some _), w4. split; [reflexivity|]. simpl. auto.
Qed.

Lemma transcribe_loop_from (self : CSVProfileTranscriber) (rest : list dict) :
  forall (start : nat) (acc : list transcription) (w : W),
  exists ts w',
    for_fold (fun transcriptions ip =>
                r <~ transcribe_post self (fst ip) (snd ip) ;;
                ret (match r with
                     | Some t => (transcriptions ++ [t])%list
                     | None => transcriptions
                     end))
             (enumerate start rest) acc w = (Ok (acc ++ ts)%list, w')
    /\ Forall (fun t => (start <= post_number t)%nat
                        /\ rest !! (post_number t - start)%nat = Some (csv_data t)
                        /\ url t = dict_get_default (csv_data t) "url" (VStr "")
                        /\ truthy (url t) = true) ts
    /\ StronglySorted lt (map post_number ts)
    /\ (length ts <= length rest)%nat.
Proof.
  induction rest as [|post rest IH]; intros start acc w.
  - exists [], w. rewrite app_nil_r. repeat split; constructor.
  - cbn [enumerate for_fold]. unfold bind at 1 2. cbn [fst snd].
    destruct (transcribe_post_result self start post w) as [r [w1 [-> Hr]]].
    unfold ret at 1.
    assert (Hshift : forall t,
               (S start <= post_number t)%nat
               /\ rest !! (post_number t - S start)%nat = Some (csv_data t)
               /\ url t = dict_get_default (csv_data t) "url" (VStr "")
               /\ truthy (url t) = true ->
               (start <= post_number t)%nat
               /\ (post :: rest) !! (post_number t - start)%nat = Some (csv_data t)
               /\ url t = dict_get_default (csv_data t) "url" (VStr "")
               /\ truthy (url t) = true).
    { intros t [Hle [Hlook Hrest]]. split; [lia|]. split; [|exact Hrest].
      replace (post_number t - start)%nat with (S (post_number t - S start)) by lia.
      exact Hlook. }
    destruct r as [t|].
    + destruct (IH (S start) (acc ++ [t])%list w1) as [ts [w' [Hrun [Hall [Hsorted Hlen]]]]].
      exists (t :: ts), w'. rewrite Hrun, <- app_assoc. split; [reflexivity|].
      destruct Hr as [Hn [Hd [Hu Ht]]]. split; [|split].
      * constructor.
        -- split; [lia|]. split; [now rewrite Hn, Nat.sub_diag, Hd|].
           split; [now rewrite Hd | exact Ht].
        -- eapply Forall_impl; [exact Hall | exact Hshift].
      * simpl. constructor; [exact Hsorted|].
        apply Forall_fmap. eapply Forall_impl; [exact Hall|].
        intros t' [Hle _]. simpl. lia.
      * simpl. lia.
    + destruct (IH (S start) acc w1) as [ts [w' [Hrun [Hall [Hsorted Hlen]]]]].
      exists ts, w'. split; [exact Hrun|]. split; [|split].
      * eapply Forall_impl; [exact Hall | exact Hshift].
      * exact Hsorted.
      * simpl. lia.
Qed.

(** X13: the media loop never raises, whatever a post's download,
    transcription or file lookup does; its results are in the order of
    the selected posts, each numbered by the 1-based position of its own
    record and carrying that record and its non-empty url. *)
Theorem transcribe_loop_results (self : CSVProfileTranscriber) (posts : list dict) (w : W) :
  exists ts w',
    transcribe_loop self posts w = (Ok ts, w')
    /\ Forall (transcribed_from posts) ts
    /\ StronglySorted lt (map post_number ts)
    /\ (length ts <= length posts)%nat.
Proof.
  destruct (transcribe_loop_from self posts 1 [] w) as [ts [w' [Hrun [Hall [Hsorted Hlen]]]]].
  exists ts, w'. split; [exact Hrun|]. split; [|auto].
  eapply Forall_impl; [exact Hall|]. intros t [Hle Hrest]. split; exact Hle || exact Hrest.
Qed.
End LoopFacts.

(** ** The pipeline, continued *)

Lemma filter_video_posts_none (posts : list dict) :
  Forall no_video_url posts -> filter_video_posts posts = Ok [].
Proof.
  induction 1 as [|post rest Hpost _ IH]; [reflexivity|].
  cbn [filter_video_posts]. rewrite IH.
  assert (Hdrop : is_video_post post = Ok false).
  { unfold no_video_url in Hpost. unfold is_video_post, dict_get_default. cbv zeta.
    destruct (dict_get post "url") as [[| | | |s]|]; try tauto; try reflexivity.
    destruct Hpost as [Hreel Hp]. cbn [str_in rbind]. now rewrite Hreel, Hp. }
  now rewrite Hdrop.
Qed.

Lemma normalize_rows_error (rows : list row) (e : exn) :
  mapM_result normalize_row rows = Err e ->
  e = AttributeError /\ Exists has_surplus rows.
Proof.
  induction rows as [|r rest IH]; simpl; [discriminate|].
  unfold normalize_row at 1. cbv zeta.
  destruct (surplus r) as [cells0|] eqn:Hs; simpl.
  - intros [= <-]. split; [reflexivity|]. apply Exists_cons_hd.
    unfold has_surplus. now rewrite Hs.
  - destruct (mapM_result normalize_row rest) as [posts|e'] eqn:Hrest; simpl; [discriminate|].
    intros [= <-]. destruct (IH eq_refl) as [-> Hex]. split; [reflexivity|].
    now apply Exists_cons_tl.
Qed.

Lemma normalize_rows_ok (rows : list row) (posts : list dict) :
  mapM_result normalize_row rows = Ok posts ->
  posts = map normalize_post (map cells rows) /\ Forall (fun r => surplus r = None) rows.
Proof.
  revert posts. induction rows as [|r rest IH]; simpl; intros posts.
  - intros [= <-]. split; [reflexivity | constructor].
  - unfold normalize_row at 1. cbv zeta.
    destruct (surplus r) as [cells0|] eqn:Hs; simpl; [discriminate|].
    destruct (mapM_result normalize_row rest) as [posts'|e'] eqn:Hrest; simpl; [|discriminate].
    intros [= <-]. destruct (IH _ eq_refl) as [-> Hall]. split; [reflexivity|].
    now constructor.
Qed.

(** On rows that normalize, the normalizer is the one on string-keyed
    records, applied to the cells. *)
Lemma normalize_column_names_raw_ok (rows : list row) (posts : list dict) :
  normalize_column_names_raw rows = Ok posts ->
  posts = normalize_column_names (map cells rows)
  /\ Forall (fun r => surplus r = None) rows.
Proof.
  destruct rows as [|r rest]; [intros [= <-]; split; [reflexivity | constructor]|].
  unfold normalize_column_names_raw. intros Hok.
  now apply normalize_rows_ok in Hok.
Qed.

Lemma normalize_column_names_raw_error (rows : list row) (e : exn) :
  normalize_column_names_raw rows = Err e ->
  e = AttributeError /\ Exists has_surplus rows.
Proof.
  destruct rows as [|r rest]; [discriminate|].
  unfold normalize_column_names_raw. apply normalize_rows_error.
Qed.

Lemma normalize_column_names_raw_plain (posts : list dict) :
  normalize_column_names_raw (map plain_row posts) = Ok (normalize_column_names posts).
Proof.
  assert (Hmap : forall l, mapM_result normalize_row (map plain_row l)
                           = Ok (map normalize_post l)).
  { induction l as [|d l IH]; [reflexivity|].
    cbn [map mapM_result]. rewrite IH. reflexivity. }
  destruct posts as [|post rest]; [reflexivity|].
  unfold normalize_column_names. apply (Hmap (post :: rest)).
Qed.

Section PipelineErrors.
Context {W : Type} `{Externals W}.

(** X14: a table whose rows normalize and of which none has a reel or
    post url is nothing to process: the pipeline returns [None] right
    after reading, before any call of the media pipeline. *)
Theorem process_csv_file_no_videos (self : CSVProfileTranscriber) (csv_file : string)
    (top_count : Z) (sort_by : string) (filter_pinned : bool) (profile_name : value)
    (quick_transcribe : bool) (rows : list row) (posts : list dict) (w w1 : W) :
  read_csv_data self csv_file w = (Ok rows, w1) ->
  normalize_column_names_raw rows = Ok posts ->
  Forall no_video_url posts ->
  process_csv_file self csv_file top_count sort_by filter_pinned profile_name
                   quick_transcribe w = (Ok None, w1).
Proof.
  intros Hread Hnorm Hnone. unfold process_csv_file.
  rewrite (bind_ok _ _ _ _ _ Hread).
  destruct rows as [|row rest]; [reflexivity|].
  unfold bind at 1, lift_result. rewrite Hnorm. cbv zeta.
  rewrite (filter_video_posts_none _ Hnone). reflexivity.
Qed.

(** X15: the pipeline raises only in three ways: the normalizer's
    [AttributeError] on a row with surplus cells (the key [None] of the
    [csv.DictReader] fallback), the video filter's [TypeError], or an
    error of the report writer on at least one result; a failure of the
    reader, of the sort or of any post's media processing never
    surfaces. *)
Theorem process_csv_file_errors (self : CSVProfileTranscriber) (csv_file : string)
    (top_count : Z) (sort_by : string) (filter_pinned : bool) (profile_name : value)
    (quick_transcribe : bool) (w w' : W) (e : exn) :
  process_csv_file self csv_file top_count sort_by filter_pinned profile_name
                   quick_transcribe w = (Err e, w') ->
  (exists rows, fst (read_csv_data self csv_file w) = Ok rows
                /\ normalize_column_names_raw rows = Err e
                /\ e = AttributeError
                /\ Exists has_surplus rows)
  \/ (exists rows posts,
         fst (read_csv_data self csv_file w) = Ok rows
         /\ normalize_column_names_raw rows = Ok posts
         /\ filter_video_posts posts = Err e
         /\ e = TypeError)
  \/ (exists transcriptions profile w1,
         transcriptions <> []
         /\ create_combined_document self transcriptions profile quick_transcribe w1
            = (Err e, w')).
Proof.
  unfold process_csv_file.
  destruct (read_csv_data_total self csv_file w) as [rows [w1 Hread]].
  rewrite (bind_ok _ _ _ _ _ Hread).
  destruct rows as [|row rest]; [discriminate|].
  unfold bind at 1, lift_result.
  destruct (normalize_column_names_raw (row :: rest)) as [normalized|e0] eqn:Hnorm.
  - cbv zeta. unfold bind at 1.
    destruct (filter_video_posts normalized) as [[|post posts]|e'] eqn:Hfilter.
    + discriminate.
    + set (selected := select_top_posts _ top_count). clearbody selected.
      set (profile := if negb (truthy profile_name) then _ else profile_name).
      clearbody profile. unfold transcribe_posts.
      destruct selected as [|s0 srest]; [discriminate|].
      destruct (transcribe_loop_from self (s0 :: srest) 1 [] w1) as [ts [w2 [Hloop _]]].
      unfold transcribe_loop. rewrite (bind_ok _ _ _ _ _ Hloop). cbn [app].
      destruct ts as [|t ts]; [discriminate|].
      unfold bind, ret.
      destruct (create_combined_document self (t :: ts) profile quick_transcribe w2)
        as [[path|e''] w3] eqn:Hdoc; [discriminate|].
      intros [= <- <-]. right. right.
      exists (t :: ts), profile, w2. split; [discriminate | exact Hdoc].
    + intros [= <- <-]. right. left. exists (row :: rest), normalized.
      rewrite Hread. split; [reflexivity|]. split; [exact Hnorm|].
      split; [exact Hfilter|].
      eapply filter_video_posts_error_kind. exact Hfilter.
  - intros [= <- <-]. left. exists (row :: rest). rewrite Hread.
    split; [reflexivity|]. split; [exact Hnorm|].
    now apply normalize_column_names_raw_error.
Qed.

(** X16: outside quick mode (the flag off, or not exactly one result)
    the report goes to [<profile>top<N>transcripts.txt] when that name
    is free, and to the same name with [_<timestamp>] before the
    extension when it is taken. *)
Theorem batch_report_name (self : CSVProfileTranscriber)
    (transcriptions : list transcription) (profile_name : value) (quick_transcribe : bool)
    (taken : bool) (timestamp : string) (w w1 w2 : W) :
  quick_transcribe = false \/ length transcriptions <> 1%nat ->
  path_exists (path_join (output_dir self)
                 (batch_filename profile_name (length transcriptions) "")) w
    = (Ok taken, w1) ->
  now_stamp w1 = (Ok timestamp, w2) ->
  final_filename transcriptions profile_name quick_transcribe self w
  = if taken
    then (Ok (batch_filename profile_name (length transcriptions) ("_" +:+ timestamp)), w2)
    else (Ok (batch_filename profile_name (length transcriptions) ""), w1).
Proof.
  intros Hbatch Hexists Hnow. unfold final_filename.
  assert (Hname : computed_filename transcriptions profile_name quick_transcribe w
                  = (Ok (batch_filename profile_name (length transcriptions) ""), w)).
  { unfold computed_filename.
    destruct quick_transcribe; [|reflexivity].
    destruct transcriptions as [|t [|t' ts]]; try reflexivity.
    destruct Hbatch as [Hq|Hlen]; [discriminate | now elim Hlen]. }
  rewrite (bind_ok _ _ _ _ _ Hname). cbv zeta.
  rewrite (bind_ok _ _ _ _ _ Hexists).
  destruct taken; [|reflexivity].
  now rewrite (bind_ok _ _ _ _ _ Hnow).
Qed.
(** X17: the reader never raises: it returns what the structured
    parse gives when that succeeds (the fallback is then not run), else
    what the line-oriented parse gives, else the empty list. *)
Theorem read_csv_data_never_raises (self : CSVProfileTranscriber) (csv_file : string)
    (w : W) :
  exists rows w',
    read_csv_data self csv_file w = (Ok rows, w')
    /\ (forall rows0 w0, pd_read_csv csv_file w = (Ok rows0, w0) -> rows = rows0 /\ w' = w0)
    /\ (forall e w0 rows1 w1,
          pd_read_csv csv_file w = (Err e, w0) ->
          csv_DictReader csv_file w0 = (Ok rows1, w1) -> rows = rows1 /\ w' = w1)
    /\ (forall e w0 e2 w1,
          pd_read_csv csv_file w = (Err e, w0) ->
          csv_DictReader csv_file w0 = (Err e2, w1) -> rows = [] /\ w' = w1).
Proof.
  unfold read_csv_data, try_except.
  destruct (pd_read_csv csv_file w) as [[rows0|e0] w0].
  - exists rows0, w0. split; [reflexivity|]. split; [|split].
    + now intros ? ? [= <- <-].
    + intros; discriminate.
    + intros; discriminate.
  - destruct (csv_DictReader csv_file w0) as [[rows1|e1] w1] eqn:Hfallback.
    + exists rows1, w1. split; [reflexivity|]. split; [intros; discriminate|]. split.
      * intros e w0' rows w1' [= <- <-] Hfb. rewrite Hfallback in Hfb. now injection Hfb.
      * intros e w0' e2 w1' [= <- <-] Hfb. rewrite Hfallback in Hfb. discriminate.
    + exists [], w1. split; [reflexivity|]. split; [intros; discriminate|]. split.
      * intros e w0' rows w1' [= <- <-] Hfb. rewrite Hfallback in Hfb. discriminate.
      * intros e w0' e2 w1' [= <- <-] Hfb. rewrite Hfallback in Hfb.
        injection Hfb as _ <-. now split.
Qed.

(** X18: once the report is written, a failing cleanup cannot lose it:
    when the name is chosen and the write succeeds,
    [create_combined_document] returns the path of the report, whatever
    the removal of the per-post files does. *)
Theorem report_survives_cleanup (self : CSVProfileTranscriber)
    (transcriptions : list transcription) (profile_name : value) (quick_transcribe : bool)
    (filename generated : string) (w w1 w2 w3 : W) :
  final_filename transcriptions profile_name quick_transcribe self w = (Ok filename, w1) ->
  now_pretty w1 = (Ok generated, w2) ->
  write_text (path_join (output_dir self) filename)
             (report_text transcriptions profile_name generated) w2 = (Ok tt, w3) ->
  exists w',
    create_combined_document self transcriptions profile_name quick_transcribe w
    = (Ok (path_join (output_dir self) filename), w').
Proof.
  intros Hname Hnow Hwrite. unfold create_combined_document.
  rewrite (bind_ok _ _ _ _ _ Hname). cbv zeta.
  rewrite (bind_ok _ _ _ _ _ Hnow), (bind_ok _ _ _ _ _ Hwrite).
  assert (Hclean : exists w', cleanup_individual_files self transcriptions w3 = (Ok tt, w')).
  { destruct (cleanup_loop_never_raises self transcriptions w3) as [w4 Hloop].
    unfold cleanup_individual_files. rewrite (bind_ok _ _ _ _ _ Hloop).
    unfold try_except, ret.
    destruct (transcriber_cleanup w4) as [[[]|e] w5]; eauto. }
  destruct Hclean as [w' Hclean]. rewrite (bind_ok _ _ _ _ _ Hclean).
  now exists w'.
Qed.
End PipelineErrors.

Lemma process_csv_file_no_videos_witness :
  process_csv_file extension_dir "notes.csv" 5 "view_count" true VNone false
                   world_without_videos = (Ok None, world_without_videos).
Proof.
  eapply (process_csv_file_no_videos extension_dir "notes.csv" 5 "view_count" true VNone false).
  - vm_compute. reflexivity.
  - vm_compute. reflexivity.
  - repeat constructor.
Defined.

(** A line longer than the header makes the pipeline raise. *)
Example process_csv_file_surplus_cells :
  @process_csv_file Toy.world Toy.ragged extension_dir "ragged.csv" 5 "view_count"
                    true VNone false Toy.empty
  = (Err AttributeError, Toy.empty).
Proof. reflexivity. Qed.

Lemma process_csv_file_errors_witness :
  exists rows posts,
    fst (read_csv_data extension_dir "bad.csv" world_bad_table) = Ok rows
    /\ normalize_column_names_raw rows = Ok posts
    /\ filter_video_posts posts = Err TypeError.
Proof.
  assert (Hrun : process_csv_file extension_dir "bad.csv" 5 "view_count" true VNone false
                   world_bad_table = (Err TypeError, world_bad_table))
    by (vm_compute; reflexivity).
  destruct (process_csv_file_errors extension_dir "bad.csv" 5 "view_count" true VNone false
              world_bad_table world_bad_table TypeError Hrun)
    as [[rows [_ [_ [Hkind _]]]]
       |[[rows [posts [Hread [Hnorm [Hfilter _]]]]]
        |[ts [profile [w1 [Hne Hdoc]]]]]].
  - discriminate Hkind.
  - exists rows, posts. repeat split; assumption.
  - exists (map plain_row posts_empty_url), posts_empty_url.
    repeat split; vm_compute; reflexivity.
Defined.

Lemma batch_report_name_witness :
  final_filename three_results (VStr "alice") false extension_dir
                 (world_with_file "alicetop3transcripts.txt")
  = (Ok "alicetop3transcripts_T1.txt", world_with_file "alicetop3transcripts.txt").
Proof.
  apply (batch_report_name extension_dir three_results (VStr "alice") false true "T1"
           (world_with_file "alicetop3transcripts.txt")
           (world_with_file "alicetop3transcripts.txt")
           (world_with_file "alicetop3transcripts.txt")).
  - now left.
  - reflexivity.
  - reflexivity.
Defined.

(** ** Command line and entry point, continued *)

Section EntryFacts.
Context {W : Type} `{Externals W}.

(** X19: the preview shows exactly what a run would transcribe: with
    the same arguments the pipeline hands the previewed records, in the
    previewed order, to the media loop (and returns [None] without
    calling it when the preview is empty). *)
Theorem preview_matches_processing (self : CSVProfileTranscriber) (csv_file : string)
    (top : Z) (sort_by : string) (filter_pinned : bool) (profile_name : value)
    (quick_transcribe : bool) (top_posts : list dict) (w w1 : W) :
  main_preview self csv_file top sort_by (negb filter_pinned) w = (Ok top_posts, w1) ->
  exists profile,
    process_csv_file self csv_file top sort_by filter_pinned profile_name quick_transcribe w
    = transcribe_posts self top_posts profile quick_transcribe w1
    /\ (truthy profile_name = true -> profile = profile_name).
Proof.
  unfold main_preview, process_csv_file.
  destruct (read_csv_data_total self csv_file w) as [rows [w0 Hread]].
  rewrite !(bind_ok _ _ _ _ _ Hread). rewrite negb_involutive.
  destruct rows as [|row rest].
  - intros [= <- <-]. exists profile_name. split; [reflexivity | trivial].
  - unfold bind, lift_result, ret.
    destruct (normalize_column_names_raw (row :: rest)) as [normalized|e0];
      [|discriminate].
    cbv zeta.
    destruct (filter_video_posts normalized) as [posts|e]; [|discriminate].
    intros [= <- <-].
    eexists (if negb (truthy profile_name) then _ else profile_name). split.
    + destruct posts as [|post posts]; [|reflexivity].
      assert (Hnone : select_top_posts
                        (sort_posts_by_metric
                           (if filter_pinned then filter_non_pinned_posts [] else []) sort_by)
                        top = []).
      { destruct filter_pinned; unfold select_top_posts, slice_to; simpl;
          destruct (0 <=? top); apply take_nil. }
      now rewrite Hnone.
    + now intros ->.
Qed.

(** X20: a request without posts (no [input], no [posts] key, or an
    empty list) is answered with the failure "No posts provided" and
    leaves the world untouched: no temporary file, no transcriber. *)
Theorem handler_no_posts (event : event) (w : W) :
  request_posts (request_of event) = [] ->
  handler event w = (Ok (Failure (ErrText "No posts provided")), w).
Proof.
  intros Hnone. unfold handler, try_except, handler_body. cbv zeta.
  now rewrite Hnone.
Qed.
End EntryFacts.

Lemma preview_matches_processing_witness :
  exists profile,
    process_csv_file extension_dir "in.csv" 2 "view_count" false VNone false world_scenario_a
    = transcribe_posts extension_dir [reel_row "A3" "2,000"; reel_row "A1" "1,000"]
                       profile false world_scenario_a.
Proof.
  destruct (preview_matches_processing extension_dir "in.csv" 2 "view_count" false VNone false
              [reel_row "A3" "2,000"; reel_row "A1" "1,000"]
              world_scenario_a world_scenario_a)
    as [profile [Hrun _]].
  - vm_compute. reflexivity.
  - exists profile. exact Hrun.
Defined.

Lemma handler_no_posts_witness :
  handler {| input := None |} Toy.empty
  = (Ok (Failure (ErrText "No posts provided")), Toy.empty).
Proof. apply (handler_no_posts {| input := None |} Toy.empty). reflexivity. Defined.



(** ** InstaTranscriber: URL check and transcription files *)

Lemma str_app_cons (x : ascii) (a b : string) : String x a +:+ b = String x (a +:+ b).
Proof. reflexivity. Qed.

Lemma str_app_assoc (a b c : string) : (a +:+ b) +:+ c = a +:+ (b +:+ c).
Proof. induction a as [|x a IH]; [reflexivity|]. now rewrite !str_app_cons, IH. Qed.


Lemma prefix_iff (p s : string) :
  String.prefix p s = true <-> exists t, s = p +:+ t.
Proof.
  revert s. induction p as [|x p IH]; intros s.
  - split; [intros _; now exists s | intros _; now destruct s].
  - destruct s as [|y s]; simpl.
    + split; [discriminate | intros [t Ht]; rewrite str_app_cons in Ht; discriminate].
    + destruct (ascii_dec x y) as [->|Hne].
      * rewrite IH. split; intros [t Ht]; exists t.
        -- now rewrite str_app_cons, Ht.
        -- rewrite str_app_cons in Ht. congruence.
      * split; [discriminate|].
        intros [t Ht]. rewrite str_app_cons in Ht. congruence.
Qed.

Lemma contains_iff (p s : string) :
  PyStr.contains p s = true <-> exists a t, s = a +:+ p +:+ t.
Proof.
  induction s as [|y s IH].
  - cbn [PyStr.contains]. rewrite prefix_iff. split.
    + intros [t Ht]. now exists "", t.
    + intros [[|x a] [t Ht]]; [now exists t|].
      rewrite str_app_cons in Ht. discriminate.
  - cbn [PyStr.contains]. rewrite orb_true_iff, IH, prefix_iff. split.
    + intros [[t Ht]|[a [t Ht]]]; [now exists "", t|].
      exists (String y a), t. now rewrite str_app_cons, Ht.
    + intros [[|x a] [t Ht]]; [left; now exists t|].
      right. exists a, t. rewrite str_app_cons in Ht. congruence.
Qed.

(** Whoever holds [a ++ b] holds [b]. *)
Lemma contains_longer (a b s : string) :
  PyStr.contains (a +:+ b) s = true -> PyStr.contains b s = true.
Proof.
  rewrite !contains_iff. intros [x [t Ht]].
  exists (x +:+ a), t. now rewrite Ht, !str_app_assoc.
Qed.

(** X22: a url is accepted exactly when [validators.url] accepts it
    and its lower-cased text holds "instagram.com" or "tiktok.com"
    anywhere (not only in the host): the www and vm entries add nothing. *)
Theorem is_valid_url_spec (validators_url : string -> bool) (url : string) :
  is_valid_url validators_url url
  = validators_url url
    && (PyStr.contains "instagram.com" (PyStr.lower url)
        || PyStr.contains "tiktok.com" (PyStr.lower url)).
Proof.
  unfold is_valid_url, supported_domains. destruct (validators_url url); [|reflexivity].
  cbn [negb existsb andb].
  pose proof (contains_longer "www." "instagram.com" (PyStr.lower url)) as Hw.
  pose proof (contains_longer "www." "tiktok.com" (PyStr.lower url)) as Ht.
  pose proof (contains_longer "vm." "tiktok.com" (PyStr.lower url)) as Hv.
  change ("www." +:+ "instagram.com") with "www.instagram.com" in Hw.
  change ("www." +:+ "tiktok.com") with "www.tiktok.com" in Ht.
  change ("vm." +:+ "tiktok.com") with "vm.tiktok.com" in Hv.
  destruct (PyStr.contains "instagram.com" (PyStr.lower url)); [reflexivity|].
  destruct (PyStr.contains "www.instagram.com" (PyStr.lower url));
    [discriminate (Hw eq_refl)|].
  destruct (PyStr.contains "tiktok.com" (PyStr.lower url)); [reflexivity|].
  destruct (PyStr.contains "www.tiktok.com" (PyStr.lower url));
    [discriminate (Ht eq_refl)|].
  destruct (PyStr.contains "vm.tiktok.com" (PyStr.lower url));
    [discriminate (Hv eq_refl) | reflexivity].
Qed.

Lemma all_absent (f : ascii -> bool) (c : ascii) (s : string) :
  f c = false -> PyStr.all f s = true -> PyStr.contains (String c EmptyString) s = false.
Proof.
  intros Hc Hs. apply absent_iff_all. eapply all_impl; [|exact Hs].
  intros x Hx. simpl. destruct (Ascii.eqb c x) eqn:E; [|reflexivity].
  apply Ascii.eqb_eq in E. congruence.
Qed.

Lemma absent_append (c : ascii) (a b : string) :
  PyStr.contains (String c EmptyString) (a +:+ b) = false
  <-> PyStr.contains (String c EmptyString) a = false
      /\ PyStr.contains (String c EmptyString) b = false.
Proof. rewrite !absent_iff_all, all_append. apply andb_true_iff. Qed.

(** X23: the name of a transcription file is built from safe
    characters only: the url part has at most 50 characters, each one
    alphanumeric ([str.isalnum]) or a dot, an underscore or a hyphen; as
    the slash is not alphanumeric, the name holds no path separator
    unless the time stamp does. *)
Theorem transcription_filename_safe (isalnum : ascii -> bool) (timestamp url : string) :
  PyStr.all (safe_char isalnum) (safe_url isalnum url) = true
  /\ (String.length (safe_url isalnum url) <= 50)%nat
  /\ (isalnum "/"%char = false ->
      PyStr.contains "/" timestamp = false ->
      PyStr.contains "/" (transcription_filename isalnum timestamp url) = false).
Proof.
  assert (Hsafe : PyStr.all (safe_char isalnum) (safe_url isalnum url) = true)
    by apply all_take, all_filter.
  split; [exact Hsafe|]. split; [apply length_take_le|].
  intros Hslash Hts. unfold transcription_filename.
  repeat (apply absent_append; split); try reflexivity; [exact Hts|].
  apply (all_absent (safe_char isalnum)); [|exact Hsafe].
  unfold safe_char. now rewrite Hslash.
Qed.

Lemma transcription_filename_safe_witness :
  PyStr.contains "/"
    (transcription_filename PyStr.isalnum_ascii "20240101_120000"
       "https://www.instagram.com/alice/reel/A1/")
  = false.
Proof.
  apply (transcription_filename_safe PyStr.isalnum_ascii "20240101_120000"
           "https://www.instagram.com/alice/reel/A1/"); reflexivity.
Defined.

(** *** Round trip of a transcription file *)

Lemma string_rev_of_nil : PyStr.string_rev_of [] = "".
Proof. reflexivity. Qed.










Lemma read_csv_data_never_raises_witness :
  exists rows w',
    read_csv_data extension_dir "in.csv" world_scenario_a = (Ok rows, w')
    /\ length rows = 5%nat.
Proof.
  destruct (read_csv_data_never_raises extension_dir "in.csv" world_scenario_a)
    as [rows [w' [Hread [Hprimary _]]]].
  exists rows, w'. split; [exact Hread|].
  destruct (Hprimary _ world_scenario_a eq_refl) as [-> _]. reflexivity.
Defined.

Lemma report_survives_cleanup_witness :
  exists w',
    create_combined_document extension_dir three_results (VStr "alice") false
      (world_with_file "alicetop3transcripts.txt")
    = (Ok (path_join (output_dir extension_dir) "alicetop3transcripts_T1.txt"), w').
Proof.
  eapply (report_survives_cleanup extension_dir three_results (VStr "alice") false
            "alicetop3transcripts_T1.txt" "T1"
            (world_with_file "alicetop3transcripts.txt")).
  - vm_compute. reflexivity.
  - vm_compute. reflexivity.
  - vm_compute. reflexivity.
Defined.
